(** * Sentiment-analysis microservice: worker, result store, broker connection

    A shallow embedding of the asynchronous pipeline of the repository:

    - [src/worker/main.py]                      ([SentimentWorker])
    - [src/worker/services/database_service.py] (worker [DatabaseService])
    - [src/worker/services/model_service.py]    ([ModelService])
    - [src/api/services/queue_service.py]       ([QueueService])
    - [src/api/services/database_service.py]    (the unique index on [job_id])

    Python exceptions are a sum type threaded through a state-and-exception
    monad; the MongoDB collection, the worker's metrics dictionary and the
    calls made on the channel are explicit state.  What the code does not
    decide is given from outside: the parsed form of a delivered body,
    whether a call to the store reaches the server, the answers of the
    tokenizer and of the Keras model, the clock, and the answers of the
    broker to connection attempts.  Calls on an open channel ([basic_ack],
    [basic_nack]) are taken to succeed.  Python floats (scores and clock
    readings) are idealised as exact rationals. *)

From Stdlib Require Import List String Ascii ZArith QArith Bool Lia.
Import ListNotations.

Set Warnings "-register-all".
Open Scope string_scope.
Open Scope list_scope.
Open Scope Z_scope.

(** ** Python values and exceptions *)

(** What [json.loads] can return: [None], [bool], [int], [float], [str],
    [list] and [dict] (string keys, in document order). *)
Inductive pyval : Type :=
| PyNone
| PyBool (b : bool)
| PyInt (z : Z)
| PyFloat (q : Q)
| PyStr (s : string)
| PyList (l : list pyval)
| PyDict (items : list (string * pyval)).

(** Equality of values as the store compares a field with a query constant.
    It is exact on strings, the type of [job_id] in the job envelope. *)
Fixpoint pyval_eqb (a b : pyval) : bool :=
  match a, b with
  | PyNone, PyNone => true
  | PyBool x, PyBool y => Bool.eqb x y
  | PyInt x, PyInt y => Z.eqb x y
  | PyFloat x, PyFloat y => Qeq_bool x y
  | PyStr x, PyStr y => String.eqb x y
  | PyList x, PyList y =>
      (fix all2 (l1 l2 : list pyval) : bool :=
         match l1, l2 with
         | [], [] => true
         | u :: l1', v :: l2' => pyval_eqb u v && all2 l1' l2'
         | _, _ => false
         end) x y
  | PyDict x, PyDict y =>
      (fix all2 (l1 l2 : list (string * pyval)) : bool :=
         match l1, l2 with
         | [], [] => true
         | (k1, u) :: l1', (k2, v) :: l2' =>
             String.eqb k1 k2 && pyval_eqb u v && all2 l1' l2'
         | _, _ => false
         end) x y
  | _, _ => false
  end.

(** The exception classes that occur in the modelled code. *)
Inductive exn : Type :=
| JSONDecodeError          (* json: the text is not a JSON document *)
| UnicodeDecodeError       (* json.loads on bytes that are not encoded text *)
| AttributeError
| TypeError
| DuplicateKeyError        (* pymongo: unique index violated *)
| WriteError               (* pymongo: the server refused a write *)
| AutoReconnect            (* pymongo: the server cannot be reached *)
| ModelError               (* raised inside the tokenizer or the Keras model *)
| AMQPConnectionError      (* pika: the broker cannot be reached *)
| AMQPChannelError         (* pika: the broker closed the channel *)
| PublishException.        (* Exception("Failed to publish message to queue: ...") *)

(** [except json.JSONDecodeError] *)
Definition is_JSONDecodeError (e : exn) : bool :=
  match e with JSONDecodeError => true | _ => false end.

(** [except DuplicateKeyError] *)
Definition is_DuplicateKeyError (e : exn) : bool :=
  match e with DuplicateKeyError => true | _ => false end.

(** [except AMQPConnectionError] *)
Definition is_AMQPConnectionError (e : exn) : bool :=
  match e with AMQPConnectionError => true | _ => false end.

(** [except AMQPError]: the base class of pika's connection and channel errors. *)
Definition is_AMQPError (e : exn) : bool :=
  match e with AMQPConnectionError | AMQPChannelError => true | _ => false end.

Inductive result (A : Type) : Type :=
| Ok (a : A)
| Raise (e : exn).
Arguments Ok {A} a.
Arguments Raise {A} e.

(** ** A state-and-exception monad

    A Python statement either completes or raises; the side effects made
    before a [raise] are kept. *)
Definition M (S A : Type) : Type := S -> result A * S.

Definition ret {S A} (a : A) : M S A := fun s => (Ok a, s).

Definition raise {S A} (e : exn) : M S A := fun s => (Raise e, s).

Definition bind {S A B} (m : M S A) (k : A -> M S B) : M S B :=
  fun s =>
    match m s with
    | (Ok a, s') => k a s'
    | (Raise e, s') => (Raise e, s')
    end.

Definition lift {S A} (r : result A) : M S A := fun s => (r, s).

(** [try: m  except ...: handler e]; an exception raised by the handler
    itself propagates. *)
Definition try_except {S A} (m : M S A) (handler : exn -> M S A) : M S A :=
  fun s =>
    match m s with
    | (Ok a, s') => (Ok a, s')
    | (Raise e, s') => handler e s'
    end.

Declare Scope py_scope.
Delimit Scope py_scope with py.
Notation "x <- m ;; k" := (bind m (fun x => k))
  (at level 61, m at next level, right associativity) : py_scope.
Notation "m ;;; k" := (bind m (fun _ => k))
  (at level 61, right associativity) : py_scope.
Open Scope py_scope.

(** The same for code without state. *)
Definition rbind {A B} (r : result A) (k : A -> result B) : result B :=
  match r with Ok a => k a | Raise e => Raise e end.

Definition rcatch {A} (r : result A) (handler : exn -> result A) : result A :=
  match r with Ok a => Ok a | Raise e => handler e end.

(** ** [ModelService] (src/worker/services/model_service.py) *)

Definition lower_ascii (c : ascii) : ascii :=
  let n := nat_of_ascii c in
  if ((65 <=? n) && (n <=? 90))%nat then ascii_of_nat (n + 32) else c.

(** [str.lower] on ASCII text; other bytes are left as they are. *)
Fixpoint lower (s : string) : string :=
  match s with
  | EmptyString => EmptyString
  | String c s' => String (lower_ascii c) (lower s')
  end.

(** [word in text] *)
Definition contains (word text : string) : bool :=
  match String.index 0 word text with Some _ => true | None => false end.

Definition positive_words : list string :=
  ["good"; "great"; "excellent"; "love"; "amazing"; "awesome"; "best"].

Definition negative_words : list string :=
  ["bad"; "terrible"; "awful"; "hate"; "worst"; "poor"].

(** [text.lower()] exists on [str] only. *)
Definition py_lower (text : pyval) : result string :=
  match text with
  | PyStr s => Ok (lower s)
  | _ => Raise AttributeError
  end.

(** [_mock_prediction] *)
Definition _mock_prediction (text : pyval) : result Q :=
  rbind (py_lower text) (fun text_lower =>
    let pos_count := List.length (filter (fun word => contains word text_lower) positive_words) in
    let neg_count := List.length (filter (fun word => contains word text_lower) negative_words) in
    let total := (pos_count + neg_count)%nat in
    if (0 <? total)%nat
    then Ok (inject_Z (Z.of_nat pos_count) / inject_Z (Z.of_nat total))%Q
    else Ok (1 # 2)%Q).

(** [text[:50]]: slicing is defined on [str] and [list]. *)
Definition py_slice50 (text : pyval) : result pyval :=
  match text with
  | PyStr s => Ok (PyStr (String.substring 0 50 s))
  | PyList l => Ok (PyList (firstn 50 l))
  | _ => Raise TypeError
  end.

(** The loaded artefacts.  [tokenizer text] stands for
    [pad_sequences(self.tokenizer.texts_to_sequences([text]), maxlen)] and
    [model x] for [float(self.model.predict(x, verbose=0)[0][0])]; both are
    external (Keras) and may raise. *)
Record ModelService : Type := {
  max_length : nat;
  tokenizer : pyval -> result (list Z);
  model : option (list Z -> result Q)
}.

(** [preprocess_text]: on any error, [np.zeros((1, max_length))]. *)
Definition preprocess_text (self : ModelService) (text : pyval) : list Z :=
  match tokenizer self text with
  | Ok padded => padded
  | Raise _ => repeat 0 (max_length self)
  end.

(** [score >= 0.5] *)
Definition ge_half (score : Q) : bool := Qle_bool (1 # 2) score.

(** The [if self.model: ... else: ...] of [predict]: the score of the Keras
    model when one is loaded, of [_mock_prediction] otherwise. *)
Definition model_score (self : ModelService) (text : pyval) : result Q :=
  match model self with
  | Some keras => keras (preprocess_text self text)
  | None => _mock_prediction text
  end.

(** [predict]: the whole body is inside [try]; [except Exception] returns
    the neutral fallback. *)
Definition predict (self : ModelService) (text : pyval) : result (string * Q) :=
  rcatch
    (rbind (model_score self text) (fun score =>
     let sentiment := if ge_half score then "positive" else "negative" in
     (* logger.debug(f"... {text[:50]}...") *)
     rbind (py_slice50 text) (fun _ =>
     Ok (sentiment, score))))
    (fun _ => Ok ("neutral", (1 # 2)%Q)).

(** ** The result store (MongoDB collection [sentiment_results]) *)

(** A result document.  [_id] is absent until pymongo assigns one. *)
Record Doc : Type := {
  _id : option nat;
  job_id : pyval;
  text : pyval;
  sentiment : string;
  score : Q;
  timestamp : pyval;
  processed_at : string;
  worker_id : string;
  processing_time : Q;
  status : string
}.

Definition set_id (doc : Doc) (oid : option nat) : Doc :=
  {| _id := oid; job_id := job_id doc; text := text doc;
     sentiment := sentiment doc; score := score doc;
     timestamp := timestamp doc; processed_at := processed_at doc;
     worker_id := worker_id doc; processing_time := processing_time doc;
     status := status doc |}.

(** The collection: its documents in insertion order, and whether the
    unique index on [job_id] exists. *)
Record Store : Type := {
  docs : list Doc;
  job_id_unique : bool
}.

Definition has_job_id (j : pyval) (d : Doc) : bool := pyval_eqb (job_id d) j.

Fixpoint distinct_job_ids (l : list Doc) : bool :=
  match l with
  | [] => true
  | d :: l' => negb (existsb (has_job_id (job_id d)) l') && distinct_job_ids l'
  end.

(** src/api/services/database_service.py, [_connect]:
    [self.collection.create_index("job_id", unique=True)].  The server
    refuses to build the index over documents that already collide. *)
Definition create_index_job_id_unique (s : Store) : result Store :=
  if distinct_job_ids (docs s)
  then Ok {| docs := docs s; job_id_unique := true |}
  else Raise DuplicateKeyError.

(** What the outside world decides during one delivery: whether each call
    to the store reaches the server, the [ObjectId()] pymongo generates, and
    the readings of [time.time()] and [datetime.now().isoformat()]. *)
Record Env : Type := {
  find_one_up : bool;
  insert_one_up : bool;
  update_one_up : bool;
  new_object_id : nat;
  time0 : Q;
  time1 : Q;
  now0 : string;
  now1 : string
}.

(** Calls that leave the worker, in the order they are made. *)
Inductive Event : Type :=
| Efind_one (j : pyval)
| Epredict (t : pyval)
| Einsert_one (d : Doc)
| Eupdate_one (j : pyval) (d : Doc)
| Ebasic_ack
| Ebasic_nack (requeue : bool).

(** [self.metrics] *)
Record Metrics : Type := {
  total_processed : Z;
  total_failed : Z;
  total_duplicates : Z;
  start_time : Q
}.

Record World : Type := {
  store : Store;
  metrics : Metrics;
  events : list Event
}.

Definition emit (e : Event) : M World unit :=
  fun w => (Ok tt, {| store := store w; metrics := metrics w;
                      events := events w ++ [e] |}).

Definition get_store : M World Store := fun w => (Ok (store w), w).

Definition put_docs (l : list Doc) : M World unit :=
  fun w => (Ok tt, {| store := {| docs := l; job_id_unique := job_id_unique (store w) |};
                      metrics := metrics w; events := events w |}).

(** [collection.find_one({"job_id": job_id})]: the first match. *)
Definition find_one (env : Env) (j : pyval) : M World (option Doc) :=
  emit (Efind_one j) ;;;
  if find_one_up env
  then (s <- get_store ;; ret (find (has_job_id j) (docs s)))
  else raise AutoReconnect.

(** [collection.insert_one(document)].  pymongo first sets
    [document["_id"] = ObjectId()] on the caller's dictionary when the key
    is absent, then sends it; the first component is that dictionary as the
    caller sees it afterwards, whether or not the server accepts it. *)
Definition insert_one (env : Env) (document : Doc) : Doc * M World unit :=
  let document :=
    match _id document with
    | Some _ => document
    | None => set_id document (Some (new_object_id env))
    end in
  (document,
   emit (Einsert_one document) ;;;
   if insert_one_up env
   then (s <- get_store ;;
         if job_id_unique s && existsb (has_job_id (job_id document)) (docs s)
         then raise DuplicateKeyError
         else put_docs (docs s ++ [document]))
   else raise AutoReconnect).

Definition oid_eqb (a b : option nat) : bool :=
  match a, b with
  | Some x, Some y => Nat.eqb x y
  | None, None => true
  | _, _ => false
  end.

(** [{"$set": fields}] applied to the first document matching [job_id].
    [_id] is immutable: setting it to another value is refused. *)
Fixpoint set_first (j : pyval) (fields : Doc) (l : list Doc) : result (list Doc) :=
  match l with
  | [] => Ok []
  | d :: l' =>
      if has_job_id j d
      then match _id fields with
           | Some _ => if oid_eqb (_id fields) (_id d)
                       then Ok (fields :: l')
                       else Raise WriteError
           | None => Ok (set_id fields (_id d) :: l')
           end
      else rbind (set_first j fields l') (fun l'' => Ok (d :: l''))
  end.

(** [collection.update_one({"job_id": j}, {"$set": fields})] *)
Definition update_one (env : Env) (j : pyval) (fields : Doc) : M World unit :=
  emit (Eupdate_one j fields) ;;;
  if update_one_up env
  then (s <- get_store ;;
        l <- lift (set_first j fields (docs s)) ;;
        put_docs l)
  else raise AutoReconnect.

(** ** Worker [DatabaseService] (src/worker/services/database_service.py) *)

(** [get_result]: any exception is logged and [None] is returned. *)
Definition get_result (env : Env) (j : pyval) : M World (option Doc) :=
  try_except (find_one env j) (fun _ => ret None).

(** [save_result] *)
Definition save_result (env : Env) (result : Doc) : M World unit :=
  let (result, inserting) := insert_one env result in
  try_except inserting
    (fun e =>
       if is_DuplicateKeyError e
       then update_one env (job_id result) result
       else raise e).

(** ** [SentimentWorker] (src/worker/main.py) *)

(** A delivered body (bytes), by what [json.loads(body)] does with it:
    bytes are first decoded to text ([UnicodeDecodeError], a [ValueError]
    that is not a [JSONDecodeError], when they are not encoded text), then
    the text is parsed ([JSONDecodeError] when it is not a JSON document). *)
Inductive Body : Type :=
| Undecodable              (* bytes that are not encoded text, e.g. b'\xff' *)
| NotJSON                  (* text that is not a JSON document, e.g. b'{oops' *)
| JSONText (v : pyval).    (* a JSON document; [v] is the decoded value *)

(** [json.loads(body)] *)
Definition json_loads (body : Body) : result pyval :=
  match body with
  | Undecodable => Raise UnicodeDecodeError
  | NotJSON => Raise JSONDecodeError
  | JSONText v => Ok v
  end.

Fixpoint dict_get (items : list (string * pyval)) (key : string) (default : pyval) : pyval :=
  match items with
  | [] => default
  | (k, v) :: items' => if String.eqb k key then v else dict_get items' key default
  end.

(** [message.get(key, default)]: only a [dict] has [get]. *)
Definition py_get (message : pyval) (key : string) (default : pyval) : result pyval :=
  match message with
  | PyDict items => Ok (dict_get items key default)
  | _ => Raise AttributeError
  end.

Record SentimentWorker : Type := {
  self_worker_id : string;
  model_service : ModelService
}.

Definition bump_processed (m : Metrics) : Metrics :=
  {| total_processed := total_processed m + 1; total_failed := total_failed m;
     total_duplicates := total_duplicates m; start_time := start_time m |}.

Definition bump_failed (m : Metrics) : Metrics :=
  {| total_processed := total_processed m; total_failed := total_failed m + 1;
     total_duplicates := total_duplicates m; start_time := start_time m |}.

Definition bump_duplicates (m : Metrics) : Metrics :=
  {| total_processed := total_processed m; total_failed := total_failed m;
     total_duplicates := total_duplicates m + 1; start_time := start_time m |}.

Definition update_metrics (f : Metrics -> Metrics) : M World unit :=
  fun w => (Ok tt, {| store := store w; metrics := f (metrics w); events := events w |}).

(** [self.metrics["total_processed"] += 1] *)
Definition incr_processed : M World unit := update_metrics bump_processed.

(** [self.metrics["total_failed"] += 1] *)
Definition incr_failed : M World unit := update_metrics bump_failed.

(** [self.metrics["total_duplicates"] += 1] *)
Definition incr_duplicates : M World unit := update_metrics bump_duplicates.

(** [self.model_service.predict(text)] *)
Definition call_predict (self : SentimentWorker) (text : pyval) : M World (string * Q) :=
  emit (Epredict text) ;;; lift (predict (model_service self) text).

(** The [try] block of [process_message]. *)
Definition process_body (self : SentimentWorker) (env : Env) (body : Body) : M World unit :=
  message <- lift (json_loads body) ;;
  job_id <- lift (py_get message "job_id" (PyStr "unknown")) ;;
  text <- lift (py_get message "text" (PyStr EmptyString)) ;;
  timestamp_str <- lift (py_get message "timestamp" (PyStr (now0 env))) ;;
  (* Check for duplicate processing (idempotency) *)
  existing_result <- get_result env job_id ;;
  match existing_result with
  | Some _ =>
      incr_duplicates ;;;
      emit Ebasic_ack
  | None =>
      (* Perform sentiment analysis *)
      let start_time := time0 env in
      prediction <- call_predict self text ;;
      let (sentiment, score) := prediction in
      let processing_time := (time1 env - start_time)%Q in
      let result :=
        {| _id := None;
           job_id := job_id;
           text := text;
           sentiment := sentiment;
           score := score;
           timestamp := timestamp_str;
           processed_at := now1 env;
           worker_id := self_worker_id self;
           processing_time := processing_time;
           status := "completed" |} in
      (* Store result in MongoDB *)
      save_result env result ;;;
      incr_processed ;;;
      (* Acknowledge message *)
      emit Ebasic_ack
  end.

(** [process_message]: the callback run for each delivery. *)
Definition process_message (self : SentimentWorker) (env : Env) (body : Body) : M World unit :=
  try_except (process_body self env body)
    (fun e =>
       if is_JSONDecodeError e
       then (* Reject without requeue (send to DLQ) *)
            emit (Ebasic_nack false) ;;; incr_failed
       else (* Reject with requeue (retry) *)
            emit (Ebasic_nack true) ;;; incr_failed).

(** The world after one delivery. *)
Definition deliver (self : SentimentWorker) (env : Env) (body : Body) (w : World) : World :=
  snd (process_message self env body w).

(** What the broker does with a delivery once the worker has answered: the
    main queue is declared with [x-dead-letter-routing-key = <queue>_dlq]. *)
Inductive Disposition : Type :=
| Removed            (* acknowledged *)
| Requeued           (* back on the main queue, to be delivered again *)
| DeadLettered.      (* moved to the dead-letter queue *)

Definition disposition (e : Event) : option Disposition :=
  match e with
  | Ebasic_ack => Some Removed
  | Ebasic_nack true => Some Requeued
  | Ebasic_nack false => Some DeadLettered
  | _ => None
  end.

(** The events of one delivery, started from an empty log. *)
Definition fresh (w : World) : World :=
  {| store := store w; metrics := metrics w; events := [] |}.

Definition trace (self : SentimentWorker) (env : Env) (body : Body) (w : World) : list Event :=
  events (deliver self env body (fresh w)).

(** The result of [get_metrics]. *)
Record MetricsReport : Type := {
  rep_metrics : Metrics;
  rep_worker_id : string;
  uptime : Q;
  processing_rate : Q
}.

(** [get_metrics]; [now] is the reading of [time.time()]. *)
Definition get_metrics (self : SentimentWorker) (now : Q) (w : World) : MetricsReport :=
  let uptime := (now - start_time (metrics w))%Q in
  {| rep_metrics := metrics w;
     rep_worker_id := self_worker_id self;
     uptime := uptime;
     processing_rate :=
       if Qlt_le_dec 0 uptime
       then (inject_Z (total_processed (metrics w)) / uptime)%Q
       else 0%Q |}.

(** [__init__], after the services are up: the metrics start at zero. *)
Definition init_metrics (now : Q) : Metrics :=
  {| total_processed := 0; total_failed := 0; total_duplicates := 0; start_time := now |}.

(** Deliveries one after the other, each with its own environment. *)
Fixpoint deliver_all (self : SentimentWorker) (ds : list (Env * Body)) (w : World) : World :=
  match ds with
  | [] => w
  | (env, body) :: ds' => deliver_all self ds' (deliver self env body w)
  end.

(** ** Connecting to the broker *)

(** What a connection routine does: attempts and sleeps, in order. *)
Inductive ConnEvent : Type :=
| Cattempt (attempt : nat)
| Csleep (seconds : Z).

Definition note (e : ConnEvent) : M (list ConnEvent) unit :=
  fun log => (Ok tt, log ++ [e]).

(** The broker as seen by a connection routine: the outcome of the body of
    the [try] at each attempt. *)
Definition Broker : Type := nat -> result unit.

(** One iteration either returns from the function or goes on. *)
Inductive Flow (A : Type) : Type :=
| Return (a : A)
| Continue.
Arguments Return {A} a.
Arguments Continue {A}.

(** The loop of [SentimentWorker.setup_rabbitmq] over the remaining values
    of [range(max_retries)]. *)
Fixpoint setup_rabbitmq_loop (max_retries : nat) (retry_delay : Z) (broker : Broker)
    (attempts : list nat) : M (list ConnEvent) unit :=
  match attempts with
  | [] => ret tt
  | attempt :: rest =>
      flow <- try_except
                (note (Cattempt attempt) ;;;
                 lift (broker attempt) ;;;
                 ret (Return tt))
                (fun e =>
                   if is_AMQPConnectionError e
                   then if (attempt <? max_retries - 1)%nat
                        then note (Csleep retry_delay) ;;; ret Continue
                        else raise e
                   else raise e) ;;
      match flow with
      | Return _ => ret tt
      | Continue => setup_rabbitmq_loop max_retries retry_delay broker rest
      end
  end.

(** [SentimentWorker.setup_rabbitmq]: [max_retries = 5], [retry_delay = 5]. *)
Definition setup_rabbitmq (broker : Broker) : M (list ConnEvent) unit :=
  let max_retries := 5%nat in
  let retry_delay := 5 in
  setup_rabbitmq_loop max_retries retry_delay broker (seq 0 max_retries).

(** [SentimentWorker.__init__] from [setup_rabbitmq] on: the worker exists
    only if the broker was reached. *)
Definition worker_startup (broker : Broker) (now : Q) : M (list ConnEvent) Metrics :=
  setup_rabbitmq broker ;;;
  ret (init_metrics now).

(** The loop of [QueueService._create_connection]; [None] when the loop
    ends without [return]. *)
Fixpoint _create_connection_loop (max_retries : nat) (retry_delay : Z) (broker : Broker)
    (attempts : list nat) : M (list ConnEvent) (option nat) :=
  match attempts with
  | [] => ret None
  | attempt :: rest =>
      flow <- try_except
                (note (Cattempt attempt) ;;;
                 lift (broker attempt) ;;;
                 ret (Return attempt))
                (fun e =>
                   if is_AMQPConnectionError e
                   then if (attempt =? max_retries - 1)%nat
                        then raise e
                        else note (Csleep retry_delay) ;;; ret Continue
                   else raise e) ;;
      match flow with
      | Return connection => ret (Some connection)
      | Continue => _create_connection_loop max_retries retry_delay broker rest
      end
  end.

(** [QueueService._create_connection]: [max_retries = 3], [retry_delay = 2].
    The connection is named by the attempt that opened it. *)
Definition _create_connection (broker : Broker) : M (list ConnEvent) (option nat) :=
  let max_retries := 3%nat in
  let retry_delay := 2 in
  _create_connection_loop max_retries retry_delay broker (seq 0 max_retries).

(** [QueueService.publish_message]; [channel_calls] is the outcome of the
    declarations and of [basic_publish] on the open connection. *)
Definition publish_message (broker : Broker) (channel_calls : result unit) : M (list ConnEvent) unit :=
  try_except
    (connection <- _create_connection broker ;;
     match connection with
     | Some _ => lift channel_calls
     | None => raise AttributeError
     end)
    (fun e =>
       if is_AMQPError e
       then raise PublishException
       else raise e).

Definition attempts_made (log : list ConnEvent) : nat :=
  List.length (filter (fun e => match e with Cattempt _ => true | _ => false end) log).

Definition sleeps_made (log : list ConnEvent) : list Z :=
  flat_map (fun e => match e with Csleep d => [d] | _ => [] end) log.

(** ** Vocabulary of the statements *)

(** The document [process_message] builds for a message with the given
    fields, once [insert_one] has given it an [_id]. *)
Definition result_document (self : SentimentWorker) (env : Env) (items : list (string * pyval))
    (sentiment : string) (score : Q) : Doc :=
  {| _id := Some (new_object_id env);
     job_id := dict_get items "job_id" (PyStr "unknown");
     text := dict_get items "text" (PyStr EmptyString);
     sentiment := sentiment;
     score := score;
     timestamp := dict_get items "timestamp" (PyStr (now0 env));
     processed_at := now1 env;
     worker_id := self_worker_id self;
     processing_time := (time1 env - time0 env)%Q;
     status := "completed" |}.

(** What [get_result] reports: the first match when the read reaches the
    server, [None] otherwise. *)
Definition reported (env : Env) (j : pyval) (s : Store) : option Doc :=
  if find_one_up env then find (has_job_id j) (docs s) else None.

(** [insert_one] would violate the unique index. *)
Definition conflicts (j : pyval) (s : Store) : bool :=
  job_id_unique s && existsb (has_job_id j) (docs s).

(** The answers given to the broker in a list of events. *)
Definition answers (l : list Event) : list Disposition :=
  flat_map (fun e => match disposition e with Some d => [d] | None => [] end) l.

(** The number of stored documents with a given [job_id]. *)
Definition records_for (j : pyval) (s : Store) : nat :=
  List.length (filter (has_job_id j) (docs s)).

(** The range of a score in the result record. *)
Definition in_unit_interval (q : Q) : Prop := (0 <= q /\ q <= 1)%Q.

(** The key does not occur in a JSON object. *)
Definition key_absent (key : string) (items : list (string * pyval)) : bool :=
  forallb (fun kv => negb (String.eqb (fst kv) key)) items.

(** The requeue path of the spec: rejected with requeue, counted as failed,
    nothing written. *)
Definition rejected_with_requeue (self : SentimentWorker) (env : Env) (body : Body)
    (w : World) : Prop :=
  answers (trace self env body w) = [Requeued]
  /\ metrics (deliver self env body w) = bump_failed (metrics w)
  /\ store (deliver self env body w) = store w.

(** The dead-letter path of the spec: rejected without requeue, counted as
    failed, nothing written. *)
Definition dead_lettered (self : SentimentWorker) (env : Env) (body : Body)
    (w : World) : Prop :=
  answers (trace self env body w) = [DeadLettered]
  /\ metrics (deliver self env body w) = bump_failed (metrics w)
  /\ store (deliver self env body w) = store w.

(** The [try] block raises. *)
Definition raises (self : SentimentWorker) (env : Env) (body : Body) (w : World) : bool :=
  match fst (process_body self env body w) with
  | Ok _ => false
  | Raise _ => true
  end.

Definition parsed (body : Body) : bool :=
  match body with JSONText _ => true | _ => false end.

(** Every delivery of a sequence parses and then raises. *)
Fixpoint all_raise (self : SentimentWorker) (ds : list (Env * Body)) (w : World) : Prop :=
  match ds with
  | [] => True
  | (env, body) :: ds' =>
      parsed body = true /\ raises self env body w = true
      /\ all_raise self ds' (deliver self env body w)
  end.

(** A job as delivered: its environment and the body of its envelope. *)
Definition job_of (j : Env * list (string * pyval)) : Env * Body :=
  (fst j, JSONText (PyDict (snd j))).

(** The read of the duplicate check and the insert reach the server. *)
Definition store_reachable (env : Env) : bool :=
  find_one_up env && insert_one_up env.

(** What a connection loop adds to the log, whatever the number of retries
    and the delay it is run with: at most one attempt for each value of the
    range, and sleeps of the given delay only, each after an attempt. *)
Definition bounded_by (n : nat) (delay : Z) (log log' : list ConnEvent) : Prop :=
  exists new,
    log' = log ++ new
    /\ (attempts_made new <= n)%nat
    /\ Forall (eq delay) (sleeps_made new)
    /\ (List.length (sleeps_made new) <= attempts_made new)%nat.

(** How a connection routine with [max_retries] attempts and delay
    [retry_delay] ends on a given broker. *)
Definition ends_as {A} (max_retries : nat) (retry_delay : Z) (broker : Broker)
    (r : result A) (log : list ConnEvent) : Prop :=
  exists k,
    (k < max_retries)%nat
    /\ attempts_made log = S k
    /\ sleeps_made log = repeat retry_delay k
    /\ (forall i, (i < k)%nat -> broker i = Raise AMQPConnectionError)
    /\ match r with
       | Ok _ => broker k = Ok tt
       | Raise e =>
           broker k = Raise e
           /\ (is_AMQPConnectionError e = true -> S k = max_retries)
       end.

(** ** Concrete scenarios *)

Module Scenario.

Definition loaded (keras : list Z -> result Q) : ModelService :=
  {| max_length := 128; tokenizer := fun _ => Ok (repeat 0 128); model := Some keras |}.

(** A model whose output layer is not a sigmoid. *)
Definition unbounded_model : ModelService := loaded (fun _ => Ok 2%Q).

(** A model whose [predict] raises. *)
Definition broken_model : ModelService := loaded (fun _ => Raise ModelError).

(** No model object: the keyword heuristic. *)
Definition keyword_model : ModelService :=
  {| max_length := 128; tokenizer := fun _ => Ok (repeat 0 128); model := None |}.

Definition worker (name : string) (ms : ModelService) : SentimentWorker :=
  {| self_worker_id := name; model_service := ms |}.

Definition env (read insert update : bool) (oid : nat) : Env :=
  {| find_one_up := read; insert_one_up := insert; update_one_up := update;
     new_object_id := oid; time0 := 10; time1 := 11;
     now0 := "2024-01-01T00:00:00"; now1 := "2024-01-01T00:00:01" |}.

Definition all_up (oid : nat) : Env := env true true true oid.

(** The read of the duplicate check fails, writes go through. *)
Definition read_down (oid : nat) : Env := env false true true oid.

(** The store is unreachable. *)
Definition store_down (oid : nat) : Env := env false false false oid.

(** An empty collection with the unique index, a worker just started. *)
Definition empty_world : World :=
  {| store := {| docs := []; job_id_unique := true |};
     metrics := init_metrics 0;
     events := [] |}.

(** The same before the API has created the index. *)
Definition empty_unindexed_world : World :=
  {| store := {| docs := []; job_id_unique := false |};
     metrics := init_metrics 0;
     events := [] |}.

Definition envelope (j t : string) : list (string * pyval) :=
  [("job_id", PyStr j); ("text", PyStr t);
   ("timestamp", PyStr "2024-01-01T00:00:00"); ("status", PyStr "submitted")].

Definition job (j t : string) : Body := JSONText (PyDict (envelope j t)).

(** The record a worker has computed for job ["j1"], before it is saved. *)
Definition record (name : string) (sc : Q) : Doc :=
  {| _id := None; job_id := PyStr "j1"; text := PyStr "I love this";
     sentiment := "positive"; score := sc; timestamp := PyStr "2024-01-01T00:00:00";
     processed_at := "2024-01-01T00:00:01"; worker_id := name;
     processing_time := 1; status := "completed" |}.

(** Two workers race on job ["j1"]: both pass the duplicate check before
    either writes ([race_checks]), then [a] saves, then [b] saves
    ([race_saves]). *)
Definition race_checks : M World (option Doc * option Doc) :=
  seen_by_a <- get_result (all_up 1) (PyStr "j1") ;;
  seen_by_b <- get_result (all_up 2) (PyStr "j1") ;;
  ret (seen_by_a, seen_by_b).

Definition race_saves : M World unit :=
  save_result (all_up 1) (record "a" (9 # 10)) ;;;
  save_result (all_up 2) (record "b" (8 # 10)).

(** A collection without the unique index that holds a record for ["j1"]. *)
Definition unindexed_world : World :=
  {| store := {| docs := [set_id (record "a" (9 # 10)) (Some 1%nat)];
                 job_id_unique := false |};
     metrics := init_metrics 0;
     events := [] |}.

(** A broker that cannot be reached, and one that answers from the third
    attempt on. *)
Definition broker_down : Broker := fun _ => Raise AMQPConnectionError.

Definition broker_slow : Broker :=
  fun attempt => if (attempt <? 2)%nat then Raise AMQPConnectionError else Ok tt.

End Scenario.

(** ** Further vocabulary *)

(** The deliveries a worker has counted, whatever their outcome. *)
Definition counted (m : Metrics) : Z :=
  total_processed m + total_failed m + total_duplicates m.

(** The number of acknowledgements and of rejections among the answers
    given to the broker. *)
Definition acks (l : list Event) : Z :=
  Z.of_nat (List.length
    (filter (fun d => match d with Removed => true | _ => false end) (answers l))).

Definition nacks (l : list Event) : Z :=
  Z.of_nat (List.length
    (filter (fun d => match d with Removed => false | _ => true end) (answers l))).

(** The job id a worker reads from the fields of a message. *)
Definition job_id_of (items : list (string * pyval)) : pyval :=
  dict_get items "job_id" (PyStr "unknown").

(** Job ids that are strings: on these the query of [find_one] and the
    unique index compare by equality. *)
Definition string_id (v : pyval) : bool :=
  match v with PyStr _ => true | _ => false end.

(** A delivery whose job id, when its body is a JSON object, is a string. *)
Definition string_job (delivery : Env * Body) : bool :=
  match snd delivery with
  | JSONText (PyDict items) => string_id (job_id_of items)
  | _ => true
  end.

(** What one delivery does to the store, the counters and the channel. *)
Inductive Outcome (w : World) (j : pyval) : World -> Prop :=
| Skipped (d : Doc) new :
    find (has_job_id j) (docs (store w)) = Some d ->
    answers new = [Removed] ->
    Outcome w j {| store := store w; metrics := bump_duplicates (metrics w);
                   events := events w ++ new |}
| Inserted (d : Doc) new :
    pyval_eqb (job_id d) j = true ->
    conflicts j (store w) = false ->
    answers new = [Removed] ->
    Outcome w j {| store := {| docs := docs (store w) ++ [d];
                               job_id_unique := job_id_unique (store w) |};
                   metrics := bump_processed (metrics w);
                   events := events w ++ new |}
| Updated (d : Doc) (l : list Doc) new :
    pyval_eqb (job_id d) j = true ->
    set_first j d (docs (store w)) = Ok l ->
    conflicts j (store w) = true ->
    answers new = [Removed] ->
    Outcome w j {| store := {| docs := l; job_id_unique := job_id_unique (store w) |};
                   metrics := bump_processed (metrics w);
                   events := events w ++ new |}
| Rejected (requeue : bool) new :
    answers new = [if requeue then Requeued else DeadLettered] ->
    Outcome w j {| store := store w; metrics := bump_failed (metrics w);
                   events := events w ++ new |}.


(** ** Connecting to the store and checking the broker *)

(** [except ConnectionFailure]: of the exceptions above, pymongo's
    [AutoReconnect] is one. *)
Definition is_ConnectionFailure (e : exn) : bool :=
  match e with AutoReconnect => true | _ => false end.

(** The store as seen by a connection routine: the outcome of
    [MongoClient(...)] and of the [ping] at each attempt. *)
Definition MongoServer : Type := nat -> result unit.

(** The loop of the worker's [DatabaseService._connect] over the remaining
    values of [range(max_retries)]. *)
Fixpoint _connect_loop (max_retries : nat) (retry_delay : Z) (server : MongoServer)
    (attempts : list nat) : M (list ConnEvent) unit :=
  match attempts with
  | [] => ret tt
  | attempt :: rest =>
      flow <- try_except
                (note (Cattempt attempt) ;;;
                 lift (server attempt) ;;;
                 ret (Return tt))
                (fun e =>
                   if is_ConnectionFailure e
                   then if (attempt <? max_retries - 1)%nat
                        then note (Csleep retry_delay) ;;; ret Continue
                        else raise e
                   else raise e) ;;
      match flow with
      | Return _ => ret tt
      | Continue => _connect_loop max_retries retry_delay server rest
      end
  end.

(** Worker [DatabaseService._connect]: [max_retries = 3], [retry_delay = 2]. *)
Definition _connect (server : MongoServer) : M (list ConnEvent) unit :=
  let max_retries := 3%nat in
  let retry_delay := 2 in
  _connect_loop max_retries retry_delay server (seq 0 max_retries).

(** How a connection routine that retries on the exceptions [retried] ends. *)
Definition ends_after {A} (retried : exn -> bool) (max_retries : nat) (retry_delay : Z)
    (server : nat -> result unit) (r : result A) (log : list ConnEvent) : Prop :=
  exists k,
    (k < max_retries)%nat
    /\ attempts_made log = S k
    /\ sleeps_made log = repeat retry_delay k
    /\ (forall i, (i < k)%nat -> exists e, server i = Raise e /\ retried e = true)
    /\ match r with
       | Ok _ => server k = Ok tt
       | Raise e => server k = Raise e /\ (retried e = true -> S k = max_retries)
       end.

(** [QueueService.check_connection]; [is_closed] is [connection.is_closed]
    and [closing] the outcome of [connection.close()]. *)
Definition check_connection (broker : Broker) (is_closed : bool) (closing : result unit)
    : M (list ConnEvent) bool :=
  try_except
    (connection <- _create_connection broker ;;
     match connection with
     | Some _ =>
         if negb is_closed
         then lift closing ;;; ret true
         else ret false
     | None => ret false
     end)
    (fun _ => ret false).

(** The first attempt at which the broker answers, every attempt before it
    failing with a connection error. *)
Definition reached_within (n : nat) (broker : Broker) : Prop :=
  exists k, (k < n)%nat /\ broker k = Ok tt
            /\ forall i, (i < k)%nat -> broker i = Raise AMQPConnectionError.

(** ** [SentimentWorker.__init__] *)

(** The attempts made on the store and on the broker while a worker starts. *)
Record Startup : Type := {
  store_log : list ConnEvent;
  broker_log : list ConnEvent
}.

Definition on_store_log {A} (m : M (list ConnEvent) A) : M Startup A :=
  fun s =>
    let (r, log) := m (store_log s) in
    (r, {| store_log := log; broker_log := broker_log s |}).

Definition on_broker_log {A} (m : M (list ConnEvent) A) : M Startup A :=
  fun s =>
    let (r, log) := m (broker_log s) in
    (r, {| store_log := store_log s; broker_log := log |}).

(** [SentimentWorker.__init__]: the model service, then the database
    service, then the broker, then the metrics.  [worker_id] is the prefix
    of the [uuid4] drawn and [loading] the outcome of [ModelService()]. *)
Definition SentimentWorker_init (worker_id : string) (loading : result ModelService)
    (server : MongoServer) (broker : Broker) (now : Q)
    : M Startup (SentimentWorker * Metrics) :=
  model_service <- lift loading ;;
  on_store_log (_connect server) ;;;
  metrics <- on_broker_log (worker_startup broker now) ;;
  ret ({| self_worker_id := worker_id; model_service := model_service |}, metrics).

(** The seconds slept in a log. *)
Definition slept (log : list ConnEvent) : Z :=
  fold_right Z.add 0 (sleeps_made log).

Definition no_startup : Startup := {| store_log := []; broker_log := [] |}.

(** ** [ModelService.load_model] (src/worker/services/model_service.py) *)

(** What a model or tokenizer file, or the object loaded from it, is. *)
Inductive Artefact : Type :=
| Trained      (* made elsewhere and put in place *)
| Dummy.       (* made by [_create_dummy_model] / [_create_dummy_tokenizer] *)

Inductive File : Type :=
| Missing
| Holds (a : Artefact)
| Unreadable.  (* the file exists and loading it raises *)

(** The two files under [/app/models] and whether they can be written, and
    the two attributes of the service. *)
Record Models : Type := {
  model_file : File;
  tokenizer_file : File;
  writable : bool;
  self_model : option Artefact;
  self_tokenizer : option Artefact
}.

(** [os.path.exists] *)
Definition exists_ (f : File) : bool :=
  match f with Missing => false | _ => true end.

(** [load_model(path)] and [pickle.load(f)]: any failure of Keras, pickle
    or the file system is an exception, which [load_model] does not tell
    apart. *)
Definition load_file (f : File) : result Artefact :=
  match f with
  | Holds a => Ok a
  | _ => Raise ModelError
  end.

(** [_create_dummy_model]: the model is built and trained, saved to
    [model_path], then assigned to [self.model]. *)
Definition _create_dummy_model : M Models unit :=
  fun s =>
    if writable s
    then (Ok tt, {| model_file := Holds Dummy; tokenizer_file := tokenizer_file s;
                    writable := writable s;
                    self_model := Some Dummy; self_tokenizer := self_tokenizer s |})
    else (Raise ModelError, s).

(** [_create_dummy_tokenizer]: the tokenizer is assigned to
    [self.tokenizer] and fitted, then saved to [tokenizer_path]. *)
Definition _create_dummy_tokenizer : M Models unit :=
  fun s =>
    let s' := {| model_file := model_file s; tokenizer_file := tokenizer_file s;
                 writable := writable s;
                 self_model := self_model s; self_tokenizer := Some Dummy |} in
    if writable s
    then (Ok tt, {| model_file := model_file s; tokenizer_file := Holds Dummy;
                    writable := writable s;
                    self_model := self_model s; self_tokenizer := Some Dummy |})
    else (Raise ModelError, s').

Definition set_self_model (a : Artefact) : M Models unit :=
  fun s => (Ok tt, {| model_file := model_file s; tokenizer_file := tokenizer_file s;
                      writable := writable s;
                      self_model := Some a; self_tokenizer := self_tokenizer s |}).

Definition set_self_tokenizer (a : Artefact) : M Models unit :=
  fun s => (Ok tt, {| model_file := model_file s; tokenizer_file := tokenizer_file s;
                      writable := writable s;
                      self_model := self_model s; self_tokenizer := Some a |}).

Definition get_models : M Models Models := fun s => (Ok s, s).

(** [load_model] *)
Definition load_model : M Models unit :=
  try_except
    (s <- get_models ;;
     if exists_ (model_file s)
     then (model <- lift (load_file (model_file s)) ;;
           set_self_model model ;;;
           if exists_ (tokenizer_file s)
           then (tokenizer <- lift (load_file (tokenizer_file s)) ;;
                 set_self_tokenizer tokenizer)
           else _create_dummy_tokenizer)
     else (_create_dummy_model ;;; _create_dummy_tokenizer))
    (fun _ =>
       (* Fallback to mock model *)
       _create_dummy_model ;;; _create_dummy_tokenizer).

(** [ModelService.__init__]: both attributes are [None], then [load_model]. *)
Definition ModelService_init (model tokenizer : File) (can_write : bool) : result unit * Models :=
  load_model {| model_file := model; tokenizer_file := tokenizer; writable := can_write;
                self_model := None; self_tokenizer := None |}.

(** [is_loaded] *)
Definition is_loaded (s : Models) : bool :=
  match self_model s with Some _ => true | None => false end.

(** ** The API (src/api) *)

(** Exceptions as the endpoints see them: those of the libraries used by
    the services, plain [Exception(message)], pydantic's [ValidationError]
    and FastAPI's [HTTPException]; [Str e] stands for [str(e)]. *)
Inductive api_exn : Type :=
| Library (e : exn)
| PlainException (message : string) (cause : exn)   (* Exception(f"{message}: {cause}") *)
| ValidationError
| ValueError                                         (* e.g. of [datetime.fromisoformat] *)
| HTTPException (status_code : Z) (detail : Detail)
with Detail : Type :=
| Literal (s : string)
| Str (e : api_exn).


(** [except HTTPException] *)
Definition is_HTTPException (e : api_exn) : bool :=
  match e with HTTPException _ _ => true | _ => false end.

(** [except OperationFailure]: pymongo's write errors are. *)
Definition is_OperationFailure (e : exn) : bool :=
  match e with WriteError | DuplicateKeyError => true | _ => false end.

Inductive aresult (A : Type) : Type :=
| AOk (a : A)
| ARaise (e : api_exn).
Arguments AOk {A} a.
Arguments ARaise {A} e.

Definition AM (S A : Type) : Type := S -> aresult A * S.

Definition aret {S A} (a : A) : AM S A := fun s => (AOk a, s).

Definition araise {S A} (e : api_exn) : AM S A := fun s => (ARaise e, s).

Definition abind {S A B} (m : AM S A) (k : A -> AM S B) : AM S B :=
  fun s =>
    match m s with
    | (AOk a, s') => k a s'
    | (ARaise e, s') => (ARaise e, s')
    end.

Definition atry {S A} (m : AM S A) (handler : api_exn -> AM S A) : AM S A :=
  fun s =>
    match m s with
    | (AOk a, s') => (AOk a, s')
    | (ARaise e, s') => handler e s'
    end.

(** A call into a service modelled above: its exceptions are the library's. *)
Definition call {S A} (m : M S A) : AM S A :=
  fun s =>
    match m s with
    | (Ok a, s') => (AOk a, s')
    | (Raise e, s') => (ARaise (Library e), s')
    end.

Declare Scope api_scope.
Delimit Scope api_scope with api.
Notation "x <- m ;; k" := (abind m (fun x => k))
  (at level 61, m at next level, right associativity) : api_scope.
Notation "m ;;; k" := (abind m (fun _ => k))
  (at level 61, right associativity) : api_scope.

(** [min(a, b)] and [max(a, b)] of Python: the first argument unless the
    second is strictly smaller (resp. greater). *)
Definition py_min (a b : Q) : Q := if Qlt_le_dec b a then b else a.

Definition py_max (a b : Q) : Q := if Qlt_le_dec a b then b else a.

(** [ge=0.0, le=1.0] of the score fields in src/api/schemas.py. *)
Definition score_field_ok (score : Q) : bool := Qle_bool 0 score && Qle_bool score 1.

(** [s.replace("Z", '')]: every Z is dropped. *)
Fixpoint replace_Z (s : string) : string :=
  match s with
  | EmptyString => EmptyString
  | String c s' => if Ascii.eqb c "Z" then replace_Z s' else String c (replace_Z s')
  end.

(** The broker connection attempts of the API and the bodies on the main
    queue. *)
Record Wire : Type := {
  conn_log : list ConnEvent;
  main_queue : list Body
}.



(** [json.dumps(message)], as the bytes that [json.loads] reads back to the
    same value. *)
Definition json_dumps (message : pyval) : Body := JSONText message.


Definition no_wire : Wire := {| conn_log := []; main_queue := [] |}.

(** The library functions the result endpoint relies on: [datetime] with
    [fromisoformat] and [(b - a).total_seconds()], and pydantic's reading of
    a [str] field and of a [datetime] field ([None] when they raise). *)
Record Libraries : Type := {
  datetime : Type;
  fromisoformat : string -> option datetime;
  total_seconds : datetime -> datetime -> option Q;
  str_field : pyval -> option string;
  datetime_field : pyval -> option datetime
}.

Module Api.

Local Open Scope api_scope.

(** *** [ModelService] (src/api/services/model_service.py) *)

Definition positive_keywords : list string :=
  ["love"; "great"; "excellent"; "good"; "amazing"; "awesome"; "best"].

Definition negative_keywords : list string :=
  ["hate"; "terrible"; "bad"; "awful"; "worst"; "poor"].

(** [predict]; [noise] is the value drawn by [random.uniform(-0.2, 0.2)]. *)
Definition predict (text : string) (noise : Q) : string * Q :=
  let text_lower := lower text in
  let positive_count :=
    List.length (filter (fun word => contains word text_lower) positive_keywords) in
  let negative_count :=
    List.length (filter (fun word => contains word text_lower) negative_keywords) in
  let total := (positive_count + negative_count)%nat in
  let score :=
    if (0 <? total)%nat
    then (inject_Z (Z.of_nat positive_count) / inject_Z (Z.of_nat total))%Q
    else (1 # 2)%Q in
  let score := py_max 0 (py_min 1 (score + noise)) in
  let sentiment := if ge_half score then "positive" else "negative" in
  (sentiment, score).

(** *** Schemas (src/api/schemas.py) *)




(** *** Endpoints (src/api/endpoints.py) *)



(** The envelope [analyze_sentiment_async] builds. *)
Definition message_of (job_id text timestamp : string) : pyval :=
  PyDict [("job_id", PyStr job_id); ("text", PyStr text);
          ("timestamp", PyStr timestamp); ("status", PyStr "submitted")].


(** *** [DatabaseService] (src/api/services/database_service.py) *)

(** [_connect]: ping, then the indexes.  The second [except] clause, for
    [ServerSelectionTimeoutError], names a subclass of [ConnectionFailure]
    and is never reached. *)
Definition _connect (ping_up : bool) : AM World unit :=
  atry
    (if ping_up
     then (fun w =>
             match create_index_job_id_unique (store w) with
             | Ok s => (AOk tt, {| store := s; metrics := metrics w; events := events w |})
             | Raise e => (ARaise (Library e), w)
             end)
     else araise (Library AutoReconnect))
    (fun e =>
       match e with
       | Library x =>
           if is_ConnectionFailure x
           then araise (PlainException "MongoDB connection failed" x)
           else araise e
       | _ => araise e
       end).

(** [get_result]: [_id] becomes a string, a date field that is not a
    string is asked for its [isoformat()]. *)
Definition get_result (env : Env) (job_id : string) : AM World (option Doc) :=
  atry
    (result <- call (find_one env (PyStr job_id)) ;;
     match result with
     | Some d =>
         match timestamp d with
         | PyStr _ => aret (Some d)
         | _ => araise (Library AttributeError)
         end
     | None => aret None
     end)
    (fun e =>
       match e with
       | Library x =>
           if is_OperationFailure x
           then araise (PlainException "Database operation failed" x)
           else araise e
       | _ => araise e
       end).

(** [SentimentResult] *)
Record SentimentResult (lib : Libraries) : Type := {
  result_job_id : string;
  result_text : string;
  result_sentiment : string;
  result_score : Q;
  result_timestamp : datetime lib;
  result_processed_at : datetime lib;
  result_processing_time : Q
}.
Arguments result_job_id {lib} _.
Arguments result_text {lib} _.
Arguments result_sentiment {lib} _.
Arguments result_score {lib} _.
Arguments result_timestamp {lib} _.
Arguments result_processed_at {lib} _.
Arguments result_processing_time {lib} _.

(** [SentimentResult] built from the keys of [result]: the keys the
    schema does not name are ignored. *)
Definition new_SentimentResult (lib : Libraries) (d : Doc) (processing_time : Q)
    : aresult (SentimentResult lib) :=
  match str_field lib (job_id d), str_field lib (text d),
        datetime_field lib (timestamp d), datetime_field lib (PyStr (processed_at d)) with
  | Some j, Some t, Some ts, Some pa =>
      if score_field_ok (score d)
      then AOk {| result_job_id := j; result_text := t; result_sentiment := sentiment d;
                  result_score := score d; result_timestamp := ts;
                  result_processed_at := pa; result_processing_time := processing_time |}
      else ARaise ValidationError
  | _, _, _, _ => ARaise ValidationError
  end.

(** [datetime.fromisoformat(value.replace("Z", ''))] *)
Definition parse_datetime (lib : Libraries) (value : pyval) : aresult (datetime lib) :=
  match value with
  | PyStr s =>
      match fromisoformat lib (replace_Z s) with
      | Some t => AOk t
      | None => ARaise ValueError
      end
  | _ => ARaise (Library AttributeError)
  end.

Definition alift {S A} (r : aresult A) : AM S A := fun s => (r, s).

(** [get_sentiment_result] *)
Definition get_sentiment_result (lib : Libraries) (ping_up : bool) (env : Env)
    (job_id : string) : AM World (SentimentResult lib) :=
  atry
    (_connect ping_up ;;;
     result <- get_result env job_id ;;
     match result with
     | None =>
         araise (HTTPException 404
                   (Literal (String.append "Job ID '"
                               (String.append job_id "' not found or still processing"))))
     | Some d =>
         (* Calculate processing time *)
         timestamp <- alift (parse_datetime lib (timestamp d)) ;;
         processed_at <- alift (parse_datetime lib (PyStr (processed_at d))) ;;
         processing_time <-
           alift (match total_seconds lib processed_at timestamp with
                  | Some seconds => AOk seconds
                  | None => ARaise (Library TypeError)
                  end) ;;
         alift (new_SentimentResult lib d processing_time)
     end)
    (fun e =>
       if is_HTTPException e
       then araise e
       else araise (HTTPException 500 (Literal "Error retrieving sentiment analysis result"))).

End Api.

(** The two errors of the result endpoint. *)
Definition not_served : api_exn :=
  HTTPException 500 (Literal "Error retrieving sentiment analysis result").

Definition not_found (job_id : string) : api_exn :=
  HTTPException 404 (Literal ("Job ID '" ++ job_id ++ "' not found or still processing")).

(** ** A scenario for the result endpoint *)

Module ApiScenario.

(** Stand-ins for [datetime] and pydantic: a time is kept as its text, two
    times are one second apart, and a [str] field takes strings only. *)
Definition libs : Libraries :=
  {| datetime := string;
     fromisoformat := fun s => Some s;
     total_seconds := fun _ _ => Some 1%Q;
     str_field := fun v => match v with PyStr s => Some s | _ => None end;
     datetime_field := fun v => match v with PyStr s => Some s | _ => None end |}.

End ApiScenario.


(** * Properties *)

(** ** Lists and values *)

Lemma existsb_false_find {A} (f : A -> bool) (l : list A) :
  existsb f l = false -> find f l = None.
Proof.
  induction l as [|a l IH]; cbn; [reflexivity|].
  destruct (f a); cbn; [discriminate|exact IH].
Qed.

Lemma existsb_false_filter {A} (f : A -> bool) (l : list A) :
  existsb f l = false -> filter f l = [].
Proof.
  induction l as [|a l IH]; cbn; [reflexivity|].
  destruct (f a); cbn; [discriminate|exact IH].
Qed.

Lemma find_app_none {A} (f : A -> bool) (l1 l2 : list A) :
  find f l1 = None -> find f (l1 ++ l2) = find f l2.
Proof.
  induction l1 as [|a l IH]; cbn; [reflexivity|].
  destruct (f a); [discriminate|exact IH].
Qed.

Lemma has_job_id_str (s : string) (d : Doc) :
  job_id d = PyStr s -> has_job_id (PyStr s) d = true.
Proof.
  unfold has_job_id. intros ->. cbn. apply String.eqb_refl.
Qed.

Lemma has_job_id_other (s s' : string) (d : Doc) :
  job_id d = PyStr s' -> s' <> s -> has_job_id (PyStr s) d = false.
Proof.
  unfold has_job_id. intros -> Hne. cbn. now apply String.eqb_neq.
Qed.

Lemma dict_get_absent (key : string) (items : list (string * pyval)) (default : pyval) :
  key_absent key items = true -> dict_get items key default = default.
Proof.
  induction items as [|[k v] items IH]; cbn; [reflexivity|].
  destruct (String.eqb k key); cbn; [discriminate|exact IH].
Qed.

Lemma answers_app (l1 l2 : list Event) :
  answers (l1 ++ l2) = answers l1 ++ answers l2.
Proof. apply flat_map_app. Qed.

(** ** The classifier *)

(** [predict] never raises. *)
Lemma predict_returns (ms : ModelService) (text : pyval) :
  exists sentiment score, predict ms text = Ok (sentiment, score).
Proof.
  unfold predict, rcatch, rbind.
  destruct (model_score ms text) as [sc|e].
  - destruct (py_slice50 text); eauto.
  - eauto.
Qed.

(** The label is one of the three of the result record. *)
Lemma predict_label (ms : ModelService) (text : pyval) (sentiment : string) (sc : Q) :
  predict ms text = Ok (sentiment, sc) ->
  sentiment = "positive" \/ sentiment = "negative" \/ sentiment = "neutral".
Proof.
  unfold predict, rcatch, rbind.
  destruct (model_score ms text) as [q|e].
  - destruct (py_slice50 text); intros [= <- _]; [destruct (ge_half q)|]; auto.
  - intros [= <- _]. auto.
Qed.


(** So does a text that cannot be sliced for the log line. *)
Lemma predict_unsliceable (ms : ModelService) (text : pyval) (e : exn) :
  py_slice50 text = Raise e -> predict ms text = Ok ("neutral", (1 # 2)%Q).
Proof.
  unfold predict, rcatch, rbind. intros ->. now destruct (model_score ms text).
Qed.

(** The score of a model that answers is passed on as it is. *)
Lemma predict_passes_score (ms : ModelService) (s : string) (q : Q) :
  model_score ms (PyStr s) = Ok q ->
  predict ms (PyStr s) = Ok (if ge_half q then "positive" else "negative", q).
Proof.
  unfold predict. intros ->. reflexivity.
Qed.

(** The keyword heuristic stays within [0, 1]. *)
Lemma _mock_prediction_bounds (text : pyval) (q : Q) :
  _mock_prediction text = Ok q -> (0 <= q /\ q <= 1)%Q.
Proof.
  unfold _mock_prediction, rbind.
  destruct (py_lower text) as [low|e]; [|discriminate].
  set (p := List.length _). set (n := List.length _).
  destruct (0 <? p + n)%nat eqn:Hpos; intros [= <-].
  - apply Nat.ltb_lt in Hpos.
    assert (Hd : (0 < inject_Z (Z.of_nat (p + n)))%Q)
      by (change 0%Q with (inject_Z 0); rewrite <- Zlt_Qlt; lia).
    split.
    + apply Qle_shift_div_l; [exact Hd|].
      rewrite Qmult_0_l. change 0%Q with (inject_Z 0). rewrite <- Zle_Qle. lia.
    + apply Qle_shift_div_r; [exact Hd|].
      rewrite Qmult_1_l, <- Zle_Qle. lia.
  - split; unfold Qle; cbn; lia.
Qed.

(** ** The store *)

Lemma set_first_raises j fields l e :
  set_first j fields l = Raise e -> e = WriteError.
Proof.
  induction l as [|d l IH]; cbn; [discriminate|].
  destruct (has_job_id j d).
  - destruct (_id fields); [|discriminate].
    destruct (oid_eqb _ _); [discriminate|]. now intros [= <-].
  - destruct (set_first j fields l); cbn; [discriminate|].
    intros [= <-]. now apply IH.
Qed.

(** An update that carries another [_id] than the stored document is refused. *)
Lemma set_first_other_id j fields l d oid :
  find (has_job_id j) l = Some d ->
  _id fields = Some oid -> _id d <> Some oid ->
  set_first j fields l = Raise WriteError.
Proof.
  intros Hfind Hid Hne.
  induction l as [|d' l IH]; cbn in *; [discriminate|].
  destruct (has_job_id j d').
  - injection Hfind as ->. rewrite Hid.
    destruct (_id d) as [i|]; cbn.
    + destruct (Nat.eqb_spec oid i) as [->|]; [now destruct Hne|reflexivity].
    + reflexivity.
  - rewrite (IH Hfind). reflexivity.
Qed.

Ltac run_py :=
  unfold deliver, trace, fresh, process_message, process_body, call_predict, save_result,
    insert_one, update_one, put_docs, emit, incr_processed, incr_failed, incr_duplicates,
    update_metrics, try_except, bind, lift, ret, raise, get_store;
  cbn [json_loads py_get fst snd store metrics events docs job_id_unique _id set_id
       is_JSONDecodeError is_DuplicateKeyError].

Lemma get_result_reports env j w :
  get_result env j w =
  (Ok (reported env j (store w)),
   {| store := store w; metrics := metrics w; events := events w ++ [Efind_one j] |}).
Proof.
  unfold get_result, find_one, reported, emit, try_except, bind, ret, raise, get_store.
  destruct (find_one_up env); reflexivity.
Qed.

(** [save_result] when a document with the same [job_id] is in the way: the
    fallback update carries the [_id] that [insert_one] has just put into
    the caller's dictionary, and the server refuses it. *)
Lemma save_result_conflict env result d w :
  insert_one_up env = true -> update_one_up env = true ->
  job_id_unique (store w) = true ->
  find (has_job_id (job_id result)) (docs (store w)) = Some d ->
  _id result = None -> _id d <> Some (new_object_id env) ->
  exists w', save_result env result w = (Raise WriteError, w') /\ store w' = store w.
Proof.
  intros Hins Hupd Huniq Hfind Hnone Hne.
  run_py. rewrite Hnone, Hins. cbn. rewrite Huniq. cbn.
  assert (Hex : existsb (has_job_id (job_id result)) (docs (store w)) = true).
  { destruct (existsb _ _) eqn:E; [reflexivity|].
    apply existsb_false_find in E. congruence. }
  rewrite Hex. cbn. rewrite Hupd. cbn.
  rewrite (set_first_other_id _ _ _ d (new_object_id env)); cbn; auto.
  eexists; split; reflexivity.
Qed.

(** [save_result] lets no [DuplicateKeyError] out. *)
Lemma save_result_no_duplicate_key env result w e w' :
  save_result env result w = (Raise e, w') -> is_DuplicateKeyError e = false.
Proof.
  run_py.
  destruct (insert_one_up env); cbn.
  - destruct (_ && _); cbn.
    + destruct (update_one_up env); cbn.
      * destruct (set_first _ _ _) eqn:Hs; cbn; [discriminate|].
        intros [= <- _]. now rewrite (set_first_raises _ _ _ _ Hs).
      * now intros [= <- _].
    + discriminate.
  - now intros [= <- _].
Qed.

(** ** One delivery, path by path *)

Section Paths.

Variables (self : SentimentWorker) (env : Env) (items : list (string * pyval)) (w : World).

Let job : pyval := dict_get items "job_id" (PyStr "unknown").
Let txt : pyval := dict_get items "text" (PyStr EmptyString).

(** A record is reported: counted as a duplicate and acknowledged. *)
Lemma deliver_duplicate (d : Doc) :
  reported env job (store w) = Some d ->
  deliver self env (JSONText (PyDict items)) w =
  {| store := store w;
     metrics := bump_duplicates (metrics w);
     events := events w ++ [Efind_one job; Ebasic_ack] |}.
Proof.
  intros Hrep. run_py. rewrite get_result_reports. fold job. rewrite Hrep. cbn.
  rewrite <- app_assoc. reflexivity.
Qed.

(** Nothing is reported and the insert goes through: stored, counted as
    processed, acknowledged. *)
Lemma deliver_stores (sentiment : string) (sc : Q) :
  reported env job (store w) = None ->
  insert_one_up env = true ->
  conflicts job (store w) = false ->
  predict (model_service self) txt = Ok (sentiment, sc) ->
  deliver self env (JSONText (PyDict items)) w =
  {| store := {| docs := docs (store w) ++ [result_document self env items sentiment sc];
                 job_id_unique := job_id_unique (store w) |};
     metrics := bump_processed (metrics w);
     events := events w ++
       [Efind_one job; Epredict txt;
        Einsert_one (result_document self env items sentiment sc); Ebasic_ack] |}.
Proof.
  unfold conflicts. intros Hrep Hup Hfree Hp.
  run_py. rewrite get_result_reports. fold job txt. rewrite Hrep. cbn.
  rewrite Hp. cbn. rewrite Hup. cbn. fold job. rewrite Hfree. cbn.
  repeat rewrite <- app_assoc. reflexivity.
Qed.

(** Nothing is reported and the insert does not reach the server. *)
Lemma deliver_insert_unreachable (sentiment : string) (sc : Q) :
  reported env job (store w) = None ->
  insert_one_up env = false ->
  predict (model_service self) txt = Ok (sentiment, sc) ->
  deliver self env (JSONText (PyDict items)) w =
  {| store := store w;
     metrics := bump_failed (metrics w);
     events := events w ++
       [Efind_one job; Epredict txt;
        Einsert_one (result_document self env items sentiment sc); Ebasic_nack true] |}.
Proof.
  intros Hrep Hup Hp.
  run_py. rewrite get_result_reports. fold job txt. rewrite Hrep. cbn.
  rewrite Hp. cbn. rewrite Hup. cbn.
  repeat rewrite <- app_assoc. reflexivity.
Qed.

(** Nothing is reported, the insert hits the unique index and the update
    does not reach the server. *)
Lemma deliver_update_unreachable (sentiment : string) (sc : Q) :
  reported env job (store w) = None ->
  insert_one_up env = true ->
  conflicts job (store w) = true ->
  update_one_up env = false ->
  predict (model_service self) txt = Ok (sentiment, sc) ->
  deliver self env (JSONText (PyDict items)) w =
  {| store := store w;
     metrics := bump_failed (metrics w);
     events := events w ++
       [Efind_one job; Epredict txt;
        Einsert_one (result_document self env items sentiment sc);
        Eupdate_one job (result_document self env items sentiment sc);
        Ebasic_nack true] |}.
Proof.
  unfold conflicts. intros Hrep Hup Hfree Hupd Hp.
  run_py. rewrite get_result_reports. fold job txt. rewrite Hrep. cbn.
  rewrite Hp. cbn. rewrite Hup. cbn. fold job. rewrite Hfree. cbn. rewrite Hupd. cbn.
  repeat rewrite <- app_assoc. reflexivity.
Qed.

End Paths.

Lemma deliver_not_a_dict self env v w :
  (forall items, v <> PyDict items) ->
  deliver self env (JSONText v) w =
  {| store := store w; metrics := bump_failed (metrics w);
     events := events w ++ [Ebasic_nack true] |}.
Proof.
  intros Hv. run_py. destruct v; try reflexivity. now destruct (Hv items).
Qed.

(** A body that is text but not JSON takes the dead-letter path. *)
Lemma deliver_not_json self env w :
  deliver self env NotJSON w =
  {| store := store w; metrics := bump_failed (metrics w);
     events := events w ++ [Ebasic_nack false] |}.
Proof. reflexivity. Qed.

Lemma not_json_dead_lettered self env w : dead_lettered self env NotJSON w.
Proof. repeat split. Qed.

(** The [try] block on a parsed body: it either completes, and then the
    last call is [basic_ack] and the failed counter is as it was, or it
    raises something other than [JSONDecodeError] with store and counters
    as they were. *)
Lemma process_body_parsed self env v w :
  (exists w1 pre, process_body self env (JSONText v) w = (Ok tt, w1)
     /\ total_failed (metrics w1) = total_failed (metrics w)
     /\ events w1 = events w ++ pre ++ [Ebasic_ack] /\ answers pre = [])
  \/ (exists e w1 pre, process_body self env (JSONText v) w = (Raise e, w1)
     /\ is_JSONDecodeError e = false
     /\ store w1 = store w /\ metrics w1 = metrics w
     /\ events w1 = events w ++ pre /\ answers pre = []).
Proof.
  destruct v as [| | | | |l|items];
    try (right; exists AttributeError, w, []; cbn; rewrite app_nil_r; now auto).
  destruct (predict_returns (model_service self) (dict_get items "text" (PyStr EmptyString)))
    as (sentiment & sc & Hp).
  run_py. rewrite get_result_reports.
  destruct (reported _ _ _) as [d|]; cbn.
  - left. eexists _, [Efind_one _]. cbn. rewrite <- app_assoc. cbn. now auto.
  - rewrite Hp. cbn.
    destruct (insert_one_up env); cbn.
    + destruct (job_id_unique (store w) && existsb _ (docs (store w))); cbn.
      * destruct (update_one_up env); cbn.
        -- destruct (set_first _ _ (docs (store w))) as [l|e] eqn:Hs; cbn.
           ++ left. eexists _, [_; _; _; _]. cbn. repeat rewrite <- app_assoc. cbn. now auto.
           ++ right. eexists e, _, [_; _; _; _]. cbn. repeat rewrite <- app_assoc. cbn.
              repeat split; auto.
              now rewrite (set_first_raises _ _ _ _ Hs).
        -- right. eexists AutoReconnect, _, [_; _; _; _]. cbn.
           repeat rewrite <- app_assoc. cbn. now auto.
      * left. eexists _, [_; _; _]. cbn. repeat rewrite <- app_assoc. cbn. now auto.
    + right. eexists AutoReconnect, _, [_; _; _]. cbn.
      repeat rewrite <- app_assoc. cbn. now auto.
Qed.

(** [process_message] itself never raises. *)
Lemma process_message_returns self env body w :
  fst (process_message self env body w) = Ok tt.
Proof.
  destruct body as [| |v]; try reflexivity.
  unfold process_message, try_except.
  destruct (process_body_parsed self env v w)
    as [(w1 & pre & -> & _)|(e & w1 & pre & -> & He & _)]; [reflexivity|].
  now rewrite He.
Qed.

(** A delivery whose [try] block raises after the parse. *)
Lemma deliver_raises self env v w :
  raises self env (JSONText v) w = true ->
  store (deliver self env (JSONText v) w) = store w
  /\ metrics (deliver self env (JSONText v) w) = bump_failed (metrics w)
  /\ answers (events (deliver self env (JSONText v) w)) = answers (events w) ++ [Requeued].
Proof.
  unfold raises, deliver, process_message, try_except.
  destruct (process_body_parsed self env v w)
    as [(w1 & pre & -> & _)|(e & w1 & pre & -> & He & Hs & Hm & Hev & Hpre)]; cbn;
    [discriminate|intros _].
  rewrite He. cbn. rewrite Hs, Hm, Hev. repeat split.
  rewrite !answers_app, Hpre, app_nil_r. reflexivity.
Qed.

(** A parsed body is answered exactly once, and never with a rejection
    without requeue. *)
Lemma parsed_answer self env v w :
  answers (events (deliver self env (JSONText v) w)) = answers (events w) ++ [Removed]
  \/ answers (events (deliver self env (JSONText v) w)) = answers (events w) ++ [Requeued].
Proof.
  destruct (raises self env (JSONText v) w) eqn:Hr.
  - right. now apply deliver_raises.
  - left. revert Hr. unfold raises, deliver, process_message, try_except.
    destruct (process_body_parsed self env v w)
      as [(w1 & pre & -> & _ & Hev & Hpre)|(e & w1 & pre & -> & _)]; cbn;
      [intros _|discriminate].
    rewrite Hev, !answers_app, Hpre. reflexivity.
Qed.

(** ** Idempotency *)

(** Two messages with the same job id, not yet in the store, delivered one
    after the other while the store is reachable. *)
Lemma same_job_id_twice
    (self : SentimentWorker) (env1 env2 : Env) (items1 items2 : list (string * pyval))
    (s : string) (w : World) :
  dict_get items1 "job_id" (PyStr "unknown") = PyStr s ->
  dict_get items2 "job_id" (PyStr "unknown") = PyStr s ->
  existsb (has_job_id (PyStr s)) (docs (store w)) = false ->
  find_one_up env1 = true -> insert_one_up env1 = true -> find_one_up env2 = true ->
  let w1 := deliver self env1 (JSONText (PyDict items1)) w in
  let w2 := deliver self env2 (JSONText (PyDict items2)) w1 in
  (exists sentiment sc,
      predict (model_service self) (dict_get items1 "text" (PyStr EmptyString)) = Ok (sentiment, sc)
      /\ docs (store w1) = docs (store w) ++ [result_document self env1 items1 sentiment sc])
  /\ records_for (PyStr s) (store w1) = 1%nat
  /\ records_for (PyStr s) (store w2) = 1%nat
  /\ store w2 = store w1
  /\ metrics w1 = bump_processed (metrics w)
  /\ metrics w2 = bump_duplicates (metrics w1)
  /\ events w2 = events w1 ++ [Efind_one (PyStr s); Ebasic_ack].
Proof.
  intros Hj Hj2 Hnew Hr1 Hi1 Hr2 w1 w2.
  destruct (predict_returns (model_service self) (dict_get items1 "text" (PyStr EmptyString)))
    as (sentiment & sc & Hp).
  assert (H1 : w1 = _) by
    (apply (deliver_stores self env1 items1 w sentiment sc);
     [unfold reported; rewrite Hr1, Hj; now apply existsb_false_find
     |exact Hi1
     |unfold conflicts; rewrite Hj, Hnew; apply andb_false_r
     |exact Hp]).
  assert (Hcount : records_for (PyStr s) (store w1) = 1%nat).
  { rewrite H1. unfold records_for. cbn [store docs].
    rewrite filter_app, (existsb_false_filter _ _ Hnew). cbn [filter app].
    now rewrite (has_job_id_str s) by exact Hj. }
  assert (Hrep : reported env2 (dict_get items2 "job_id" (PyStr "unknown")) (store w1)
                 = Some (result_document self env1 items1 sentiment sc)).
  { rewrite H1. unfold reported. rewrite Hr2, Hj2. cbn [store docs].
    rewrite find_app_none by now apply existsb_false_find.
    cbn [find]. now rewrite (has_job_id_str s) by exact Hj. }
  assert (H2 : w2 = _) by exact (deliver_duplicate self env2 items2 w1 _ Hrep).
  rewrite Hj2 in H2.
  repeat split; try exact Hcount; try (rewrite H2; reflexivity).
  - exists sentiment, sc. split; [exact Hp|]. rewrite H1. reflexivity.
  - rewrite H2. exact Hcount.
  - rewrite H1. reflexivity.
Qed.

(** C1.  A job whose id is not yet in the store is delivered twice while the
    store is reachable.  The first delivery stores one record and leaves the
    duplicate counter as it was; the second finds the record through
    [get_result], adds exactly one to the duplicate counter, moves no other
    counter and acknowledges: its only calls are [find_one] and [basic_ack],
    so the classifier is not invoked and nothing is written.  Exactly one
    record with that job id is stored afterwards. *)
Theorem C1_redelivery_is_skipped_as_duplicate
    (self : SentimentWorker) (env1 env2 : Env) (items : list (string * pyval))
    (s : string) (w : World) :
  dict_get items "job_id" (PyStr "unknown") = PyStr s ->
  existsb (has_job_id (PyStr s)) (docs (store w)) = false ->
  find_one_up env1 = true -> insert_one_up env1 = true -> find_one_up env2 = true ->
  let w1 := deliver self env1 (JSONText (PyDict items)) w in
  let w2 := deliver self env2 (JSONText (PyDict items)) w1 in
  records_for (PyStr s) (store w1) = 1%nat
  /\ records_for (PyStr s) (store w2) = 1%nat
  /\ store w2 = store w1
  /\ metrics w1 = bump_processed (metrics w)
  /\ metrics w2 = bump_duplicates (metrics w1)
  /\ total_duplicates (metrics w1) = total_duplicates (metrics w)
  /\ total_duplicates (metrics w2) = total_duplicates (metrics w1) + 1
  /\ total_processed (metrics w2) = total_processed (metrics w1)
  /\ total_failed (metrics w2) = total_failed (metrics w1)
  /\ events w2 = events w1 ++ [Efind_one (PyStr s); Ebasic_ack].
Proof.
  intros Hj Hnew Hr1 Hi1 Hr2.
  destruct (same_job_id_twice self env1 env2 items items s w Hj Hj Hnew Hr1 Hi1 Hr2)
    as (_ & Hc1 & Hc2 & Hs & Hm1 & Hm2 & Hev).
  cbn zeta.
  split; [exact Hc1|]. split; [exact Hc2|]. split; [exact Hs|].
  split; [exact Hm1|]. split; [exact Hm2|].
  split; [rewrite Hm1; reflexivity|].
  split; [rewrite Hm2; reflexivity|].
  split; [rewrite Hm2; reflexivity|].
  split; [rewrite Hm2; reflexivity|exact Hev].
Qed.

Lemma C1_redelivery_witness :
  let self := Scenario.worker "a" Scenario.keyword_model in
  let w := Scenario.empty_world in
  let w1 := deliver self (Scenario.all_up 1) (Scenario.job "j1" "I love this") w in
  let w2 := deliver self (Scenario.all_up 2) (Scenario.job "j1" "I love this") w1 in
  records_for (PyStr "j1") (store w1) = 1%nat
  /\ records_for (PyStr "j1") (store w2) = 1%nat
  /\ store w2 = store w1
  /\ metrics w1 = bump_processed (metrics w)
  /\ metrics w2 = bump_duplicates (metrics w1)
  /\ total_duplicates (metrics w1) = total_duplicates (metrics w)
  /\ total_duplicates (metrics w2) = total_duplicates (metrics w1) + 1
  /\ total_processed (metrics w2) = total_processed (metrics w1)
  /\ total_failed (metrics w2) = total_failed (metrics w1)
  /\ events w2 = events w1 ++ [Efind_one (PyStr "j1"); Ebasic_ack].
Proof.
  exact (C1_redelivery_is_skipped_as_duplicate
           (Scenario.worker "a" Scenario.keyword_model)
           (Scenario.all_up 1) (Scenario.all_up 2)
           (Scenario.envelope "j1" "I love this") "j1" Scenario.empty_world
           eq_refl eq_refl eq_refl eq_refl eq_refl).
Defined.

(** ** Score bounds *)

(** C2, as stated, fails: a loaded model that answers 2 is taken at its
    word.  The score is outside [0, 1], yet the job is not rejected: the
    record is stored with score 2 and the message is acknowledged. *)
Lemma C2_out_of_range_score_is_stored :
  let self := Scenario.worker "a" Scenario.unbounded_model in
  let w' := deliver self (Scenario.all_up 1) (Scenario.job "j1" "hi") Scenario.empty_world in
  predict (model_service self) (PyStr "hi") = Ok ("positive", 2%Q)
  /\ ~ in_unit_interval 2
  /\ ~ rejected_with_requeue self (Scenario.all_up 1) (Scenario.job "j1" "hi") Scenario.empty_world
  /\ map score (docs (store w')) = [2%Q]
  /\ answers (events w') = [Removed]
  /\ total_failed (metrics w') = 0.
Proof.
  repeat split; try reflexivity.
  - intros (_ & H). now apply H.
  - intros (H & _). discriminate H.
Qed.

(** C2, amended.  The worker has no range check: when nothing is reported
    for the job and the insert goes through, the record carries the score
    and the label of [predict] as they are, whatever the score; the message
    is acknowledged and counted as processed, not as failed.  The label is
    always one of positive, negative and neutral. *)
Theorem C2_score_is_stored_unchecked
    (self : SentimentWorker) (env : Env) (items : list (string * pyval)) (w : World)
    (sentiment : string) (sc : Q) :
  predict (model_service self) (dict_get items "text" (PyStr EmptyString)) = Ok (sentiment, sc) ->
  reported env (dict_get items "job_id" (PyStr "unknown")) (store w) = None ->
  insert_one_up env = true ->
  conflicts (dict_get items "job_id" (PyStr "unknown")) (store w) = false ->
  let w' := deliver self env (JSONText (PyDict items)) w in
  docs (store w') = docs (store w) ++ [result_document self env items sentiment sc]
  /\ score (result_document self env items sentiment sc) = sc
  /\ metrics w' = bump_processed (metrics w)
  /\ answers (events w') = answers (events w) ++ [Removed]
  /\ (sentiment = "positive" \/ sentiment = "negative" \/ sentiment = "neutral").
Proof.
  intros Hp Hrep Hup Hfree w'.
  assert (H : w' = _) by exact (deliver_stores self env items w sentiment sc Hrep Hup Hfree Hp).
  rewrite H. cbn. repeat split.
  - rewrite answers_app. reflexivity.
  - exact (predict_label _ _ _ _ Hp).
Qed.

Lemma C2_score_witness :
  let self := Scenario.worker "a" Scenario.unbounded_model in
  let env := Scenario.all_up 1 in
  let items := Scenario.envelope "j1" "hi" in
  let w' := deliver self env (JSONText (PyDict items)) Scenario.empty_world in
  docs (store w') = docs (store Scenario.empty_world) ++ [result_document self env items "positive" 2]
  /\ score (result_document self env items "positive" 2) = 2%Q
  /\ metrics w' = bump_processed (metrics Scenario.empty_world)
  /\ answers (events w') = answers (events Scenario.empty_world) ++ [Removed]
  /\ ("positive" = "positive" \/ "positive" = "negative" \/ "positive" = "neutral").
Proof.
  exact (C2_score_is_stored_unchecked
           (Scenario.worker "a" Scenario.unbounded_model) (Scenario.all_up 1)
           (Scenario.envelope "j1" "hi") Scenario.empty_world "positive" 2%Q
           eq_refl eq_refl eq_refl eq_refl).
Defined.

(** ** Classifier failures *)




(** ** Malformed messages *)

(** C4, at the failing input.  A body whose bytes are not encoded text
    (b'\xff') makes [json.loads] raise [UnicodeDecodeError], which is not a
    [JSONDecodeError]: the worker rejects it with requeue, so it comes back
    on the main queue instead of going to the dead-letter queue. *)
Theorem C4_undecodable_body_is_requeued (self : SentimentWorker) (env : Env) (w : World) :
  json_loads Undecodable = Raise UnicodeDecodeError
  /\ rejected_with_requeue self env Undecodable w
  /\ ~ dead_lettered self env Undecodable w.
Proof.
  repeat split. intros (H & _). discriminate H.
Qed.

(** ** Failures after the parse *)

(** C5, as stated, fails for the two causes it names.  The classifier of
    this worker raises on the text and the read of the duplicate check does
    not reach the server, both after the body has parsed; neither exception
    leaves the [try] block.  The job is stored with the neutral fallback and
    acknowledged: it is not rejected with requeue and the failed counter
    stays 0. *)
Lemma C5_classifier_and_read_errors_are_acknowledged :
  let self := Scenario.worker "a" Scenario.broken_model in
  let env := Scenario.read_down 1 in
  let body := Scenario.job "j1" "hi" in
  let w' := deliver self env body Scenario.empty_world in
  parsed body = true
  /\ model_score (model_service self) (PyStr "hi") = Raise ModelError
  /\ fst (find_one env (PyStr "j1") Scenario.empty_world) = Raise AutoReconnect
  /\ raises self env body Scenario.empty_world = false
  /\ ~ rejected_with_requeue self env body Scenario.empty_world
  /\ answers (events w') = [Removed]
  /\ total_failed (metrics w') = 0
  /\ total_processed (metrics w') = 1
  /\ map sentiment (docs (store w')) = ["neutral"].
Proof.
  repeat split. intros (H & _). discriminate H.
Qed.

(** The [try] block raises on a JSON object only out of [save_result]:
    nothing was reported for the job and the insert did not reach the server
    or hit the unique index. *)
Lemma raises_in_save_result self env items w :
  raises self env (JSONText (PyDict items)) w = true ->
  reported env (dict_get items "job_id" (PyStr "unknown")) (store w) = None
  /\ (insert_one_up env = false
      \/ conflicts (dict_get items "job_id" (PyStr "unknown")) (store w) = true).
Proof.
  destruct (predict_returns (model_service self) (dict_get items "text" (PyStr EmptyString)))
    as (sentiment & sc & Hp).
  unfold raises, conflicts. run_py. rewrite get_result_reports.
  destruct (reported _ _ _) as [d|]; cbn; [discriminate|].
  rewrite Hp. cbn.
  destruct (insert_one_up env); cbn; [|now auto].
  destruct (job_id_unique (store w) && existsb _ (docs (store w))); cbn; [now auto|].
  discriminate.
Qed.

(** C5, amended.  Take any number of deliveries of bodies that parse, each
    of which lets an exception out of the [try] block after the parse.
    Every one of them is rejected with requeue and counted as failed, none
    is dead-lettered, nothing is written, and no other counter moves; the
    number of such deliveries is not bounded.  For a JSON object the only
    such exceptions come out of [save_result]: nothing was reported for the
    job and the insert did not reach the server or hit the unique index.
    An error of the classifier or of the duplicate-check read is none of
    them. *)
Theorem C5_escaping_failures_are_requeued
    (self : SentimentWorker) (ds : list (Env * Body)) (w : World) :
  all_raise self ds w ->
  let w' := deliver_all self ds w in
  (answers (events w') = answers (events w) ++ repeat Requeued (List.length ds)
   /\ total_failed (metrics w') = total_failed (metrics w) + Z.of_nat (List.length ds)
   /\ total_processed (metrics w') = total_processed (metrics w)
   /\ total_duplicates (metrics w') = total_duplicates (metrics w)
   /\ store w' = store w)
  /\ (forall env items w0,
        raises self env (JSONText (PyDict items)) w0 = true ->
        reported env (dict_get items "job_id" (PyStr "unknown")) (store w0) = None
        /\ (insert_one_up env = false
            \/ conflicts (dict_get items "job_id" (PyStr "unknown")) (store w0) = true)).
Proof.
  intros Hall. cbn zeta. split; [|intros env items w0; apply raises_in_save_result].
  revert w Hall. induction ds as [|[env body] ds IH]; intros w Hall.
  - cbn. rewrite app_nil_r. repeat split; lia.
  - destruct Hall as (Hparsed & Hraise & Hall).
    destruct body as [| |v]; try discriminate Hparsed.
    destruct (deliver_raises self env v w Hraise) as (Hs & Hm & Hev).
    destruct (IH _ Hall) as (IHev & IHf & IHp & IHd & IHs).
    cbn [deliver_all List.length repeat].
    rewrite IHev, IHf, IHp, IHd, IHs, Hev, Hs, Hm, <- app_assoc. cbn.
    repeat split; lia.
Qed.

(** While the store is unreachable, every delivery of a job raises after
    the parse, however often it is delivered. *)
Lemma store_down_all_raise (self : SentimentWorker) (env : Env)
    (items : list (string * pyval)) (n : nat) (w : World) :
  find_one_up env = false -> insert_one_up env = false ->
  all_raise self (repeat (env, JSONText (PyDict items)) n) w.
Proof.
  intros Hr Hi. revert w. induction n as [|n IH]; intros w; cbn; [exact I|].
  repeat split; [|apply IH].
  destruct (predict_returns (model_service self) (dict_get items "text" (PyStr EmptyString)))
    as (sentiment & sc & Hp).
  unfold raises. run_py. rewrite get_result_reports. unfold reported. rewrite Hr. cbn.
  rewrite Hp. cbn. rewrite Hi. reflexivity.
Qed.

Lemma C5_requeue_witness :
  let self := Scenario.worker "a" Scenario.keyword_model in
  let ds := repeat (Scenario.store_down 1, Scenario.job "j1" "great") 3 in
  let w' := deliver_all self ds Scenario.empty_world in
  answers (events w') = answers (events Scenario.empty_world) ++ repeat Requeued (List.length ds)
  /\ total_failed (metrics w') = total_failed (metrics Scenario.empty_world) + Z.of_nat (List.length ds)
  /\ total_processed (metrics w') = total_processed (metrics Scenario.empty_world)
  /\ total_duplicates (metrics w') = total_duplicates (metrics Scenario.empty_world)
  /\ store w' = store Scenario.empty_world.
Proof.
  apply (C5_escaping_failures_are_requeued
           (Scenario.worker "a" Scenario.keyword_model)
           (repeat (Scenario.store_down 1, Scenario.job "j1" "great") 3)
           Scenario.empty_world).
  cbn. repeat split.
Defined.

(** ** Racing workers *)

(** C6, at the failing input.  Workers [a] and [b] both pass the duplicate
    check for job "j1"; [a] saves first.  When [b] saves, the insert hits the
    unique index and [save_result] falls back to [update_one] with the
    dictionary that [insert_one] has just given a new [_id]; the server
    refuses to change the [_id] of the stored document, and the
    [WriteError] leaves [save_result].  One record is stored, with the
    fields of [a]: the first writer wins and [b] is left with an error, which
    [process_message] turns into a rejection with requeue. *)
Theorem C6_conflict_update_is_refused :
  create_index_job_id_unique (store Scenario.empty_unindexed_world)
  = Ok (store Scenario.empty_world)
  /\ fst (Scenario.race_checks Scenario.empty_world) = Ok (None, None)
  /\ fst (Scenario.race_saves Scenario.empty_world) = Raise WriteError
  /\ map worker_id (docs (store (snd (Scenario.race_saves Scenario.empty_world)))) = ["a"]
  /\ map score (docs (store (snd (Scenario.race_saves Scenario.empty_world)))) = [9 # 10]%Q
  /\ (let w1 := deliver (Scenario.worker "a" Scenario.keyword_model) (Scenario.all_up 1)
                  (Scenario.job "j1" "I love this") Scenario.empty_world in
      let w2 := deliver (Scenario.worker "b" Scenario.keyword_model) (Scenario.read_down 2)
                  (Scenario.job "j1" "I love this") (fresh w1) in
      store w2 = store w1
      /\ map worker_id (docs (store w2)) = ["a"]
      /\ answers (events w2) = [Requeued]
      /\ (exists d, events w2 =
            [Efind_one (PyStr "j1"); Epredict (PyStr "I love this");
             Einsert_one d; Eupdate_one (PyStr "j1") d; Ebasic_nack true])).
Proof.
  repeat split. eexists. reflexivity.
Qed.

(** Without the unique index nothing resolves the race: both inserts go
    through and two records are stored for the job. *)
Lemma race_without_index_stores_twice :
  fst (Scenario.race_saves Scenario.empty_unindexed_world) = Ok tt
  /\ map worker_id (docs (store (snd (Scenario.race_saves Scenario.empty_unindexed_world))))
     = ["a"; "b"].
Proof. split; reflexivity. Qed.

(** ** Store failures *)

(** C7, as stated, fails: the read of the duplicate check does not reach
    the server, [get_result] reports [None], and the job is classified,
    stored and acknowledged; it is not requeued and the failed counter
    stays 0.  Where a record for the job is already stored and the
    collection has no unique index, a second record is written. *)
Lemma C7_read_failure_is_swallowed :
  let self := Scenario.worker "b" Scenario.keyword_model in
  let env := Scenario.read_down 2 in
  let body := Scenario.job "j1" "I love this" in
  find_one_up env = false
  /\ ~ rejected_with_requeue self env body Scenario.empty_world
  /\ answers (trace self env body Scenario.empty_world) = [Removed]
  /\ total_failed (metrics (deliver self env body Scenario.empty_world)) = 0
  /\ records_for (PyStr "j1") (store Scenario.unindexed_world) = 1%nat
  /\ records_for (PyStr "j1") (store (deliver self env body Scenario.unindexed_world)) = 2%nat.
Proof.
  repeat split. intros (H & _). discriminate H.
Qed.

(** C7, amended.  A store failure inside [save_result] (the insert, or the
    update after a conflict, does not reach the server) leaves
    [save_result] and takes the requeue path, counted as failed.  A failure
    of the duplicate-check read does not: [get_result] reports [None], the
    classifier is invoked as if no prior result existed, and when the
    insert then goes through the job is stored and acknowledged. *)
Theorem C7_write_failure_surfaces_read_failure_does_not
    (self : SentimentWorker) (env : Env) (items : list (string * pyval)) (w : World) :
  (reported env (dict_get items "job_id" (PyStr "unknown")) (store w) = None ->
   insert_one_up env = false
   \/ (conflicts (dict_get items "job_id" (PyStr "unknown")) (store w) = true
       /\ update_one_up env = false) ->
   rejected_with_requeue self env (JSONText (PyDict items)) w)
  /\ (find_one_up env = false ->
      fst (get_result env (dict_get items "job_id" (PyStr "unknown")) w) = Ok None
      /\ In (Epredict (dict_get items "text" (PyStr EmptyString)))
            (trace self env (JSONText (PyDict items)) w)
      /\ (insert_one_up env = true ->
          conflicts (dict_get items "job_id" (PyStr "unknown")) (store w) = false ->
          answers (trace self env (JSONText (PyDict items)) w) = [Removed]
          /\ metrics (deliver self env (JSONText (PyDict items)) w) = bump_processed (metrics w)
          /\ List.length (docs (store (deliver self env (JSONText (PyDict items)) w)))
             = S (List.length (docs (store w))))).
Proof.
  destruct (predict_returns (model_service self) (dict_get items "text" (PyStr EmptyString)))
    as (sentiment & sc & Hp).
  split.
  - intros Hrep Hfail. unfold rejected_with_requeue, trace.
    destruct (insert_one_up env) eqn:Hi.
    + destruct Hfail as [Hfail|(Hc & Hu)]; [discriminate|].
      rewrite (deliver_update_unreachable self env items w sentiment sc),
              (deliver_update_unreachable self env items (fresh w) sentiment sc);
        auto.
    + rewrite (deliver_insert_unreachable self env items w sentiment sc),
              (deliver_insert_unreachable self env items (fresh w) sentiment sc);
        auto.
  - intros Hr.
    assert (Hrep : forall s, reported env (dict_get items "job_id" (PyStr "unknown")) s = None)
      by (intros s; unfold reported; now rewrite Hr).
    split; [rewrite get_result_reports; cbn; now rewrite Hrep|].
    split.
    + unfold trace, deliver. run_py. rewrite get_result_reports, Hrep. cbn. rewrite Hp. cbn.
      destruct (insert_one_up env); cbn;
        [destruct (_ && _); cbn;
         [destruct (update_one_up env); cbn;
          [destruct (set_first _ _ _) as [l|e]; cbn; [|destruct (is_JSONDecodeError e); cbn]|]|]|];
        right; left; reflexivity.
    + intros Hi Hc. unfold trace.
      rewrite (deliver_stores self env items w sentiment sc),
              (deliver_stores self env items (fresh w) sentiment sc); auto.
      cbn. rewrite length_app. cbn. repeat split. lia.
Qed.

Lemma C7_store_failure_witness :
  let self := Scenario.worker "a" Scenario.keyword_model in
  let items := Scenario.envelope "j1" "I love this" in
  let w := Scenario.empty_world in
  rejected_with_requeue self (Scenario.env true false true 1) (JSONText (PyDict items)) w
  /\ fst (get_result (Scenario.read_down 1) (PyStr "j1") w) = Ok None
  /\ answers (trace self (Scenario.read_down 1) (JSONText (PyDict items)) w) = [Removed].
Proof.
  intros self items w.
  pose proof (proj1 (C7_write_failure_surfaces_read_failure_does_not
                       self (Scenario.env true false true 1) items w)
                eq_refl (or_introl eq_refl)) as Hwrite.
  pose proof (proj2 (C7_write_failure_surfaces_read_failure_does_not
                       self (Scenario.read_down 1) items w) eq_refl)
    as (Hread & _ & Hstored).
  split; [exact Hwrite|]. split; [exact Hread|].
  exact (proj1 (Hstored eq_refl eq_refl)).
Defined.

(** ** Envelopes with missing fields *)

(** C10.  A body that is a JSON object never takes the dead-letter path,
    whatever its fields.  A missing job_id reads as "unknown" and a missing
    text as the empty string.  The first message without job_id that meets
    a reachable store with no record "unknown" is classified and stored
    under "unknown"; the next one, whatever its text, finds that record and
    is skipped as a duplicate. *)
Theorem C10_missing_fields_default (self : SentimentWorker) :
  (forall env items w,
      ~ In DeadLettered (answers (trace self env (JSONText (PyDict items)) w)))
  /\ (forall items, key_absent "job_id" items = true ->
        dict_get items "job_id" (PyStr "unknown") = PyStr "unknown")
  /\ (forall items, key_absent "text" items = true ->
        dict_get items "text" (PyStr EmptyString) = PyStr EmptyString)
  /\ (forall env1 env2 items1 items2 w,
        key_absent "job_id" items1 = true ->
        key_absent "job_id" items2 = true ->
        existsb (has_job_id (PyStr "unknown")) (docs (store w)) = false ->
        find_one_up env1 = true -> insert_one_up env1 = true -> find_one_up env2 = true ->
        let w1 := deliver self env1 (JSONText (PyDict items1)) w in
        let w2 := deliver self env2 (JSONText (PyDict items2)) w1 in
        (exists sentiment sc,
            predict (model_service self) (dict_get items1 "text" (PyStr EmptyString)) = Ok (sentiment, sc)
            /\ docs (store w1) = docs (store w) ++ [result_document self env1 items1 sentiment sc])
        /\ records_for (PyStr "unknown") (store w1) = 1%nat
        /\ records_for (PyStr "unknown") (store w2) = 1%nat
        /\ store w2 = store w1
        /\ metrics w1 = bump_processed (metrics w)
        /\ metrics w2 = bump_duplicates (metrics w1)
        /\ events w2 = events w1 ++ [Efind_one (PyStr "unknown"); Ebasic_ack]).
Proof.
  repeat apply conj.
  - intros env items w. unfold trace.
    destruct (parsed_answer self env (PyDict items) (fresh w)) as [->| ->]; cbn;
      intros [H|[]]; discriminate H.
  - intros items H. now apply dict_get_absent.
  - intros items H. now apply dict_get_absent.
  - intros env1 env2 items1 items2 w H1 H2.
    apply same_job_id_twice; now apply dict_get_absent.
Qed.

Lemma C10_missing_fields_witness :
  let self := Scenario.worker "a" Scenario.keyword_model in
  let w := Scenario.empty_world in
  let w1 := deliver self (Scenario.all_up 1) (JSONText (PyDict [])) w in
  let w2 := deliver self (Scenario.all_up 2) (JSONText (PyDict [("text", PyStr "bad")])) w1 in
  dict_get [] "job_id" (PyStr "unknown") = PyStr "unknown"
  /\ dict_get [] "text" (PyStr EmptyString) = PyStr EmptyString
  /\ records_for (PyStr "unknown") (store w2) = 1%nat
  /\ metrics w2 = bump_duplicates (metrics w1).
Proof.
  pose proof (C10_missing_fields_default (Scenario.worker "a" Scenario.keyword_model))
    as (_ & Hjob & Htext & Htwice).
  split; [exact (Hjob [] eq_refl)|].
  split; [exact (Htext [] eq_refl)|].
  pose proof (Htwice (Scenario.all_up 1) (Scenario.all_up 2) [] [("text", PyStr "bad")]
                Scenario.empty_world eq_refl eq_refl eq_refl eq_refl eq_refl eq_refl)
    as (_ & _ & Hcount & _ & _ & Hdup & _).
  split; [exact Hcount|exact Hdup].
Defined.

(** ** Metrics *)

Lemma existsb_app_false {A} (f : A -> bool) (l1 l2 : list A) :
  existsb f l1 = false -> existsb f l2 = false -> existsb f (l1 ++ l2) = false.
Proof. intros H1 H2. now rewrite existsb_app, H1, H2. Qed.

(** Jobs with pairwise distinct ids, none of them stored yet, delivered
    while the store is reachable: each one is counted as processed and no
    other counter moves. *)
Lemma distinct_jobs_are_processed (self : SentimentWorker)
    (jobs : list (Env * list (string * pyval))) :
  forall (ids : list string) (w : World),
  map (fun j => dict_get (snd j) "job_id" (PyStr "unknown")) jobs = map PyStr ids ->
  NoDup ids ->
  (forall s, In s ids -> existsb (has_job_id (PyStr s)) (docs (store w)) = false) ->
  forallb (fun j => store_reachable (fst j)) jobs = true ->
  let w' := deliver_all self (map job_of jobs) w in
  total_processed (metrics w') = total_processed (metrics w) + Z.of_nat (List.length jobs)
  /\ total_failed (metrics w') = total_failed (metrics w)
  /\ total_duplicates (metrics w') = total_duplicates (metrics w)
  /\ start_time (metrics w') = start_time (metrics w).
Proof.
  induction jobs as [|[env items] jobs IH]; intros ids w Hids Hnd Hnew Hup.
  - cbn. repeat split; lia.
  - destruct ids as [|s ids]; [discriminate|].
    cbn [map fst snd] in Hids. injection Hids as Hs Hids.
    cbn [forallb fst] in Hup. apply andb_prop in Hup as (Hre & Hup).
    unfold store_reachable in Hre. apply andb_prop in Hre as (Hr & Hi).
    inversion Hnd as [|? ? Hnotin Hnd']; subst.
    destruct (predict_returns (model_service self) (dict_get items "text" (PyStr EmptyString)))
      as (sentiment & sc & Hp).
    assert (Hfree : existsb (has_job_id (PyStr s)) (docs (store w)) = false)
      by (apply Hnew; now left).
    cbn [map deliver_all job_of fst snd List.length].
    rewrite (deliver_stores self env items w sentiment sc);
      [|unfold reported; rewrite Hr, Hs; now apply existsb_false_find
       |exact Hi
       |unfold conflicts; rewrite Hs, Hfree; apply andb_false_r
       |exact Hp].
    match goal with |- context [deliver_all self _ ?w1] =>
      destruct (IH ids w1 Hids Hnd') as (IHp & IHf & IHd & IHs) end.
    + intros s' Hin. cbn [store docs].
      apply existsb_app_false; [apply Hnew; now right|].
      cbn [existsb]. rewrite (has_job_id_other s' s); [reflexivity|exact Hs|].
      intros ->. now apply Hnotin.
    + exact Hup.
    + rewrite IHp, IHf, IHd, IHs. cbn. repeat split; lia.
Qed.

(** C9.  [get_metrics] reports [uptime = now - start_time] and
    [processing_rate = total_processed / uptime], or 0 when the uptime is
    not positive.  A worker that starts at [start] and is handed N jobs with
    pairwise distinct ids, none stored before, while the store is reachable,
    reports T seconds after its start: processed N, failed 0, duplicates 0,
    uptime T and processing rate N / T. *)
Theorem C9_metrics_after_n_jobs
    (self : SentimentWorker) (jobs : list (Env * list (string * pyval)))
    (ids : list string) (w : World) (start T : Q) :
  metrics w = init_metrics start ->
  map (fun j => dict_get (snd j) "job_id" (PyStr "unknown")) jobs = map PyStr ids ->
  NoDup ids ->
  (forall s, In s ids -> existsb (has_job_id (PyStr s)) (docs (store w)) = false) ->
  forallb (fun j => store_reachable (fst j)) jobs = true ->
  (0 < T)%Q ->
  let report := get_metrics self (start + T)%Q (deliver_all self (map job_of jobs) w) in
  total_processed (rep_metrics report) = Z.of_nat (List.length jobs)
  /\ total_failed (rep_metrics report) = 0
  /\ total_duplicates (rep_metrics report) = 0
  /\ (uptime report == T)%Q
  /\ (processing_rate report == inject_Z (Z.of_nat (List.length jobs)) / T)%Q
  /\ (forall now w0,
        uptime (get_metrics self now w0) = (now - start_time (metrics w0))%Q
        /\ ((0 < now - start_time (metrics w0))%Q ->
            processing_rate (get_metrics self now w0)
            = (inject_Z (total_processed (metrics w0)) / (now - start_time (metrics w0)))%Q)
        /\ (~ (0 < now - start_time (metrics w0))%Q ->
            processing_rate (get_metrics self now w0) = 0%Q)).
Proof.
  intros Hm Hids Hnd Hnew Hup HT report.
  destruct (distinct_jobs_are_processed self jobs ids w Hids Hnd Hnew Hup)
    as (Hp & Hf & Hd & Hs).
  rewrite Hm in Hp, Hf, Hd, Hs. cbn in Hp, Hf, Hd, Hs.
  assert (Hu : (start + T - start_time (metrics (deliver_all self (map job_of jobs) w)) == T)%Q)
    by (rewrite Hs; ring).
  unfold report, get_metrics. cbn [rep_metrics uptime processing_rate].
  repeat split; auto.
  - destruct (Qlt_le_dec _ _) as [Hlt|Hle].
    + rewrite Hp, Hu. reflexivity.
    + rewrite Hu in Hle. exfalso. exact (Qlt_not_le _ _ HT Hle).
  - intros Hpos. destruct (Qlt_le_dec _ _) as [Hlt|Hle]; [reflexivity|].
    exfalso. exact (Qlt_not_le _ _ Hpos Hle).
  - intros Hneg. destruct (Qlt_le_dec _ _) as [Hlt|Hle]; [now destruct Hneg|reflexivity].
Qed.

Lemma C9_metrics_witness :
  let self := Scenario.worker "a" Scenario.keyword_model in
  let jobs := [(Scenario.all_up 1, Scenario.envelope "j1" "great");
               (Scenario.all_up 2, Scenario.envelope "j2" "awful");
               (Scenario.all_up 3, Scenario.envelope "j3" "fine")] in
  let report := get_metrics self (0 + 6)%Q
                  (deliver_all self (map job_of jobs) Scenario.empty_world) in
  total_processed (rep_metrics report) = 3
  /\ total_failed (rep_metrics report) = 0
  /\ total_duplicates (rep_metrics report) = 0
  /\ (uptime report == 6)%Q
  /\ (processing_rate report == 3 / 6)%Q.
Proof.
  pose proof (C9_metrics_after_n_jobs
                (Scenario.worker "a" Scenario.keyword_model)
                [(Scenario.all_up 1, Scenario.envelope "j1" "great");
                 (Scenario.all_up 2, Scenario.envelope "j2" "awful");
                 (Scenario.all_up 3, Scenario.envelope "j3" "fine")]
                ["j1"; "j2"; "j3"] Scenario.empty_world 0%Q 6%Q) as H.
  destruct H as (Hp & Hf & Hd & Hu & Hr & _).
  - reflexivity.
  - reflexivity.
  - repeat constructor; cbn; intuition discriminate.
  - intros s Hin. reflexivity.
  - reflexivity.
  - reflexivity.
  - repeat split; assumption.
Defined.

(** ** Connecting to the broker *)

Lemma attempts_made_app (l1 l2 : list ConnEvent) :
  attempts_made (l1 ++ l2) = (attempts_made l1 + attempts_made l2)%nat.
Proof. unfold attempts_made. now rewrite filter_app, length_app. Qed.

Lemma sleeps_made_app (l1 l2 : list ConnEvent) :
  sleeps_made (l1 ++ l2) = sleeps_made l1 ++ sleeps_made l2.
Proof. apply flat_map_app. Qed.

Lemma bounded_by_stop (n : nat) (delay : Z) (log : list ConnEvent) (attempt : nat) :
  bounded_by (S n) delay log (log ++ [Cattempt attempt]).
Proof.
  exists [Cattempt attempt]. cbn. repeat split; auto; lia.
Qed.

Lemma bounded_by_continue (n : nat) (delay : Z) (log log' : list ConnEvent) (attempt : nat) :
  bounded_by n delay ((log ++ [Cattempt attempt]) ++ [Csleep delay]) log' ->
  bounded_by (S n) delay log log'.
Proof.
  intros (new & -> & Ha & Hs & Hl).
  exists ([Cattempt attempt; Csleep delay] ++ new).
  rewrite attempts_made_app, sleeps_made_app. cbn.
  repeat split.
  - now rewrite <- !app_assoc.
  - lia.
  - now constructor.
  - lia.
Qed.

Lemma setup_rabbitmq_loop_bounded (max_retries : nat) (retry_delay : Z) (broker : Broker)
    (attempts : list nat) :
  forall log,
    bounded_by (List.length attempts) retry_delay log
      (snd (setup_rabbitmq_loop max_retries retry_delay broker attempts log)).
Proof.
  induction attempts as [|attempt rest IH]; intros log.
  - exists []. cbn. rewrite app_nil_r. repeat split; auto.
  - cbn [setup_rabbitmq_loop List.length].
    unfold bind, try_except, note, lift, ret, raise.
    destruct (broker attempt) as [[]|e]; cbn -[Nat.ltb Nat.sub]; [apply bounded_by_stop|].
    destruct (is_AMQPConnectionError e); cbn -[Nat.ltb Nat.sub]; [|apply bounded_by_stop].
    destruct (attempt <? max_retries - 1)%nat; cbn; [|apply bounded_by_stop].
    apply (bounded_by_continue _ _ _ _ attempt), IH.
Qed.

Lemma _create_connection_loop_bounded (max_retries : nat) (retry_delay : Z) (broker : Broker)
    (attempts : list nat) :
  forall log,
    bounded_by (List.length attempts) retry_delay log
      (snd (_create_connection_loop max_retries retry_delay broker attempts log)).
Proof.
  induction attempts as [|attempt rest IH]; intros log.
  - exists []. cbn. rewrite app_nil_r. repeat split; auto.
  - cbn [_create_connection_loop List.length].
    unfold bind, try_except, note, lift, ret, raise.
    destruct (broker attempt) as [[]|e]; cbn -[Nat.eqb Nat.sub]; [apply bounded_by_stop|].
    destruct (is_AMQPConnectionError e); cbn -[Nat.eqb Nat.sub]; [|apply bounded_by_stop].
    destruct (attempt =? max_retries - 1)%nat; cbn; [apply bounded_by_stop|].
    apply (bounded_by_continue _ _ _ _ attempt), IH.
Qed.

Ltac first_attempts :=
  let i := fresh "i" in
  let Hi := fresh "Hi" in
  intros i Hi;
  repeat (destruct i as [|i]; [assumption|]);
  exfalso; lia.

Ltac ends_at k :=
  exists k; repeat split;
  first [reflexivity | lia | assumption | congruence | first_attempts].

Ltac try_broker broker k :=
  let E := fresh "E" in
  let C := fresh "C" in
  let x := fresh "e" in
  destruct (broker k) as [[]|x] eqn:E; cbn;
  [ends_at k
  |destruct (is_AMQPConnectionError x) eqn:C; cbn; [|ends_at k];
   replace x with AMQPConnectionError in E by (now destruct x)].

Lemma setup_rabbitmq_ends (broker : Broker) :
  ends_as 5 5 broker (fst (setup_rabbitmq broker [])) (snd (setup_rabbitmq broker [])).
Proof.
  unfold setup_rabbitmq, ends_as. cbn [seq setup_rabbitmq_loop].
  unfold bind, try_except, note, lift, ret, raise. cbn.
  try_broker broker 0%nat. try_broker broker 1%nat. try_broker broker 2%nat.
  try_broker broker 3%nat.
  destruct (broker 4%nat) as [[]|last] eqn:Elast; cbn; [ends_at 4%nat|].
  destruct (is_AMQPConnectionError last) eqn:Clast; cbn; ends_at 4%nat.
Qed.

Lemma _create_connection_ends (broker : Broker) :
  ends_as 3 2 broker (fst (_create_connection broker [])) (snd (_create_connection broker [])).
Proof.
  unfold _create_connection, ends_as. cbn [seq _create_connection_loop].
  unfold bind, try_except, note, lift, ret, raise. cbn.
  try_broker broker 0%nat. try_broker broker 1%nat.
  destruct (broker 2%nat) as [[]|last] eqn:Elast; cbn; [ends_at 2%nat|].
  destruct (is_AMQPConnectionError last) eqn:Clast; cbn; ends_at 2%nat.
Qed.

(** C8.  [setup_rabbitmq] makes at most 5 attempts and sleeps 5 seconds
    between two attempts; [_create_connection] makes at most 3 attempts and
    sleeps 2 seconds between two attempts.  Both end on every broker: with
    the first attempt that succeeds, or with the exception of the attempt
    that failed last, which for a connection error is the last attempt of
    the range.  That exception leaves the routine: the worker's startup
    raises it, and [publish_message] raises in its turn.  A broker that is
    never reachable is tried 5 (resp. 3) times, never more. *)
Theorem C8_broker_connection_attempts_are_bounded (broker : Broker) :
  ends_as 5 5 broker (fst (setup_rabbitmq broker [])) (snd (setup_rabbitmq broker []))
  /\ ends_as 3 2 broker (fst (_create_connection broker []))
                        (snd (_create_connection broker []))
  /\ bounded_by 5 5 [] (snd (setup_rabbitmq broker []))
  /\ bounded_by 3 2 [] (snd (_create_connection broker []))
  /\ (forall e now,
        fst (setup_rabbitmq broker []) = Raise e ->
        fst (worker_startup broker now []) = Raise e)
  /\ (forall e channel_calls,
        fst (_create_connection broker []) = Raise e ->
        fst (publish_message broker channel_calls [])
        = Raise (if is_AMQPError e then PublishException else e))
  /\ ((forall k, (k < 5)%nat -> broker k = Raise AMQPConnectionError) ->
      forall now,
        setup_rabbitmq broker []
        = (Raise AMQPConnectionError,
           [Cattempt 0; Csleep 5; Cattempt 1; Csleep 5; Cattempt 2; Csleep 5;
            Cattempt 3; Csleep 5; Cattempt 4])
        /\ fst (worker_startup broker now []) = Raise AMQPConnectionError)
  /\ ((forall k, (k < 3)%nat -> broker k = Raise AMQPConnectionError) ->
      forall channel_calls,
        _create_connection broker []
        = (Raise AMQPConnectionError,
           [Cattempt 0; Csleep 2; Cattempt 1; Csleep 2; Cattempt 2])
        /\ fst (publish_message broker channel_calls []) = Raise PublishException).
Proof.
  split; [apply setup_rabbitmq_ends|].
  split; [apply _create_connection_ends|].
  split; [apply (setup_rabbitmq_loop_bounded 5 5 broker (seq 0 5) [])|].
  split; [apply (_create_connection_loop_bounded 3 2 broker (seq 0 3) [])|].
  split; [|split; [|split]].
  - intros e now. unfold worker_startup, bind.
    destruct (setup_rabbitmq broker []) as [r log]. cbn. now intros ->.
  - intros e channel_calls. unfold publish_message, try_except, bind.
    destruct (_create_connection broker []) as [r log]. cbn. intros ->.
    now destruct (is_AMQPError e).
  - intros Hdown now.
    assert (H : setup_rabbitmq broker []
                = (Raise AMQPConnectionError,
                   [Cattempt 0; Csleep 5; Cattempt 1; Csleep 5; Cattempt 2; Csleep 5;
                    Cattempt 3; Csleep 5; Cattempt 4])).
    { unfold setup_rabbitmq. cbn [seq setup_rabbitmq_loop].
      unfold bind, try_except, note, lift, ret, raise.
      rewrite (Hdown 0%nat), (Hdown 1%nat), (Hdown 2%nat), (Hdown 3%nat), (Hdown 4%nat) by lia.
      reflexivity. }
    split; [exact H|]. unfold worker_startup, bind. now rewrite H.
  - intros Hdown channel_calls.
    assert (H : _create_connection broker []
                = (Raise AMQPConnectionError,
                   [Cattempt 0; Csleep 2; Cattempt 1; Csleep 2; Cattempt 2])).
    { unfold _create_connection. cbn [seq _create_connection_loop].
      unfold bind, try_except, note, lift, ret, raise.
      rewrite (Hdown 0%nat), (Hdown 1%nat), (Hdown 2%nat) by lia.
      reflexivity. }
    split; [exact H|]. unfold publish_message, try_except, bind. now rewrite H.
Qed.

Lemma C8_broker_down_witness :
  fst (worker_startup Scenario.broker_down 0 []) = Raise AMQPConnectionError
  /\ fst (publish_message Scenario.broker_down (Ok tt) []) = Raise PublishException
  /\ attempts_made (snd (setup_rabbitmq Scenario.broker_down [])) = 5%nat
  /\ attempts_made (snd (_create_connection Scenario.broker_down [])) = 3%nat.
Proof.
  pose proof (C8_broker_connection_attempts_are_bounded Scenario.broker_down)
    as (_ & _ & _ & _ & _ & _ & Hworker & Hproducer).
  destruct (Hworker (fun k _ => eq_refl) 0%Q) as (Hw1 & Hw2).
  destruct (Hproducer (fun k _ => eq_refl) (Ok tt)) as (Hp1 & Hp2).
  split; [exact Hw2|].
  split; [exact Hp2|].
  split; [now rewrite Hw1|now rewrite Hp1].
Defined.

(** A broker that answers at the third attempt: two sleeps, then connected. *)
Example setup_rabbitmq_slow_broker :
  setup_rabbitmq Scenario.broker_slow []
  = (Ok tt, [Cattempt 0; Csleep 5; Cattempt 1; Csleep 5; Cattempt 2])
  /\ _create_connection Scenario.broker_slow []
     = (Ok (Some 2%nat), [Cattempt 0; Csleep 2; Cattempt 1; Csleep 2; Cattempt 2]).
Proof. split; reflexivity. Qed.

(** * Further properties *)

(** ** Equality of values *)

Section pyval_induction.

Variable P : pyval -> Prop.
Hypothesis HNone : P PyNone.
Hypothesis HBool : forall b, P (PyBool b).
Hypothesis HInt : forall z, P (PyInt z).
Hypothesis HFloat : forall q, P (PyFloat q).
Hypothesis HStr : forall s, P (PyStr s).
Hypothesis HList : forall l, Forall P l -> P (PyList l).
Hypothesis HDict : forall items, Forall (fun kv => P (snd kv)) items -> P (PyDict items).

Fixpoint pyval_nested_ind (v : pyval) : P v :=
  match v with
  | PyNone => HNone
  | PyBool b => HBool b
  | PyInt z => HInt z
  | PyFloat q => HFloat q
  | PyStr s => HStr s
  | PyList l =>
      HList l ((fix all (l : list pyval) : Forall P l :=
                  match l with
                  | [] => Forall_nil _
                  | x :: l' => Forall_cons x (pyval_nested_ind x) (all l')
                  end) l)
  | PyDict items =>
      HDict items ((fix all (l : list (string * pyval)) : Forall (fun kv => P (snd kv)) l :=
                      match l with
                      | [] => Forall_nil _
                      | kv :: l' => Forall_cons kv (pyval_nested_ind (snd kv)) (all l')
                      end) items)
  end.

End pyval_induction.

Lemma pyval_eqb_refl (a : pyval) : pyval_eqb a a = true.
Proof.
  induction a as [| b | z | q | s | l IH | items IH] using pyval_nested_ind; cbn.
  - reflexivity.
  - now destruct b.
  - apply Z.eqb_refl.
  - apply Qeq_bool_refl.
  - apply String.eqb_refl.
  - induction IH as [|x l Hx _ IHl]; [reflexivity|]. now rewrite Hx, IHl.
  - induction IH as [|[k x] l Hx _ IHl]; [reflexivity|].
    cbn in Hx. now rewrite String.eqb_refl, Hx, IHl.
Qed.

Lemma pyval_eqb_sym (a : pyval) : forall b, pyval_eqb a b = pyval_eqb b a.
Proof.
  induction a as [| b | z | q | s | l IH | items IH] using pyval_nested_ind;
    intros [| b' | z' | q' | s' | l' | items']; cbn; try reflexivity.
  - now destruct b, b'.
  - apply Z.eqb_sym.
  - destruct (Qeq_bool q q') eqn:E1, (Qeq_bool q' q) eqn:E2; try reflexivity.
    + apply Qeq_bool_sym in E1. congruence.
    + apply Qeq_bool_sym in E2. congruence.
  - apply String.eqb_sym.
  - revert l'. induction IH as [|x l Hx _ IHl]; intros [|y l']; try reflexivity.
    now rewrite Hx, IHl.
  - revert items'. induction IH as [|[k x] l Hx _ IHl]; intros [|[k' y] l']; try reflexivity.
    cbn in Hx. now rewrite (String.eqb_sym k k'), Hx, IHl.
Qed.

Lemma pyval_eqb_trans (a : pyval) :
  forall b c, pyval_eqb a b = true -> pyval_eqb b c = true -> pyval_eqb a c = true.
Proof.
  induction a as [| b | z | q | s | l IH | items IH] using pyval_nested_ind;
    intros [| b' | z' | q' | s' | l' | items'] [| b'' | z'' | q'' | s'' | l'' | items''];
    cbn; try discriminate; try reflexivity.
  - destruct b, b', b''; auto.
  - intros H1 H2. apply Z.eqb_eq in H1, H2. apply Z.eqb_eq. congruence.
  - intros H1 H2. exact (Qeq_bool_trans _ _ _ H1 H2).
  - intros H1 H2. apply String.eqb_eq in H1, H2. apply String.eqb_eq. congruence.
  - revert l' l''. induction IH as [|x l Hx _ IHl]; intros [|y l'] [|z l'']; try discriminate;
      try reflexivity.
    intros H1 H2. apply andb_prop in H1 as (H1 & H1'), H2 as (H2 & H2').
    now rewrite (Hx _ _ H1 H2), (IHl _ _ H1' H2').
  - revert items' items''.
    induction IH as [|[k x] l Hx _ IHl]; intros [|[k' y] l'] [|[k'' z] l'']; try discriminate;
      try reflexivity.
    cbn in Hx. intros H1 H2.
    apply andb_prop in H1 as (H1 & H1'), H2 as (H2 & H2').
    apply andb_prop in H1 as (Hk1 & H1), H2 as (Hk2 & H2).
    apply String.eqb_eq in Hk1, Hk2. subst.
    now rewrite String.eqb_refl, (Hx _ _ H1 H2), (IHl _ _ H1' H2').
Qed.

(** Two values that are equal for the store match the same documents. *)
Lemma has_job_id_equal (j j' : pyval) (d : Doc) :
  pyval_eqb j j' = true -> has_job_id j d = has_job_id j' d.
Proof.
  unfold has_job_id. intros H.
  destruct (pyval_eqb (job_id d) j) eqn:E1, (pyval_eqb (job_id d) j') eqn:E2; try reflexivity.
  - rewrite (pyval_eqb_trans _ _ _ E1 H) in E2. discriminate.
  - rewrite pyval_eqb_sym in H. rewrite (pyval_eqb_trans _ _ _ E2 H) in E1. discriminate.
Qed.

(** ** Every path of one delivery *)

Section MorePaths.

Variables (self : SentimentWorker) (env : Env) (items : list (string * pyval)) (w : World).

(** Nothing is reported, the insert hits the unique index, and the server
    refuses the update. *)
Lemma deliver_update_refused (sentiment : string) (sc : Q) (e : exn) :
  reported env (job_id_of items) (store w) = None ->
  insert_one_up env = true ->
  conflicts (job_id_of items) (store w) = true ->
  update_one_up env = true ->
  predict (model_service self) (dict_get items "text" (PyStr EmptyString)) = Ok (sentiment, sc) ->
  set_first (job_id_of items) (result_document self env items sentiment sc) (docs (store w))
  = Raise e ->
  deliver self env (JSONText (PyDict items)) w =
  {| store := store w;
     metrics := bump_failed (metrics w);
     events := events w ++
       [Efind_one (job_id_of items);
        Epredict (dict_get items "text" (PyStr EmptyString));
        Einsert_one (result_document self env items sentiment sc);
        Eupdate_one (job_id_of items) (result_document self env items sentiment sc);
        Ebasic_nack true] |}.
Proof.
  unfold conflicts, job_id_of. intros Hrep Hup Hfree Hupd Hp Hset.
  run_py. rewrite get_result_reports, Hrep. cbn.
  rewrite Hp. cbn. rewrite Hup. cbn. rewrite Hfree. cbn. rewrite Hupd. cbn.
  match goal with |- context [set_first ?a ?b ?c] =>
    change (set_first a b c)
      with (set_first (dict_get items "job_id" (PyStr "unknown"))
              (result_document self env items sentiment sc) (docs (store w))) end.
  rewrite Hset. cbn. rewrite (set_first_raises _ _ _ _ Hset). cbn.
  repeat rewrite <- app_assoc. reflexivity.
Qed.

(** Nothing is reported, the insert hits the unique index, and the server
    accepts the update. *)
Lemma deliver_updates (sentiment : string) (sc : Q) (l : list Doc) :
  reported env (job_id_of items) (store w) = None ->
  insert_one_up env = true ->
  conflicts (job_id_of items) (store w) = true ->
  update_one_up env = true ->
  predict (model_service self) (dict_get items "text" (PyStr EmptyString)) = Ok (sentiment, sc) ->
  set_first (job_id_of items) (result_document self env items sentiment sc) (docs (store w))
  = Ok l ->
  deliver self env (JSONText (PyDict items)) w =
  {| store := {| docs := l; job_id_unique := job_id_unique (store w) |};
     metrics := bump_processed (metrics w);
     events := events w ++
       [Efind_one (job_id_of items);
        Epredict (dict_get items "text" (PyStr EmptyString));
        Einsert_one (result_document self env items sentiment sc);
        Eupdate_one (job_id_of items) (result_document self env items sentiment sc);
        Ebasic_ack] |}.
Proof.
  unfold conflicts, job_id_of. intros Hrep Hup Hfree Hupd Hp Hset.
  run_py. rewrite get_result_reports, Hrep. cbn.
  rewrite Hp. cbn. rewrite Hup. cbn. rewrite Hfree. cbn. rewrite Hupd. cbn.
  match goal with |- context [set_first ?a ?b ?c] =>
    change (set_first a b c)
      with (set_first (dict_get items "job_id" (PyStr "unknown"))
              (result_document self env items sentiment sc) (docs (store w))) end.
  rewrite Hset. cbn. repeat rewrite <- app_assoc. reflexivity.
Qed.

End MorePaths.

Lemma deliver_dict_outcome self env items w :
  Outcome w (job_id_of items) (deliver self env (JSONText (PyDict items)) w).
Proof.
  destruct (predict_returns (model_service self) (dict_get items "text" (PyStr EmptyString)))
    as (sentiment & sc & Hp).
  destruct (reported env (job_id_of items) (store w)) as [d|] eqn:Hrep.
  - rewrite (deliver_duplicate self env items w d Hrep).
    apply (Skipped _ _ d); [|reflexivity].
    unfold reported in Hrep. now destruct (find_one_up env).
  - destruct (insert_one_up env) eqn:Hi.
    + destruct (conflicts (job_id_of items) (store w)) eqn:Hc.
      * destruct (update_one_up env) eqn:Hu.
        -- destruct (set_first (job_id_of items)
                       (result_document self env items sentiment sc) (docs (store w)))
             as [l|e] eqn:Hs.
           ++ rewrite (deliver_updates self env items w sentiment sc l); auto.
              eapply Updated; eauto. apply pyval_eqb_refl.
           ++ rewrite (deliver_update_refused self env items w sentiment sc e); auto.
              now apply (Rejected _ _ true).
        -- rewrite (deliver_update_unreachable self env items w sentiment sc); auto.
           now apply (Rejected _ _ true).
      * rewrite (deliver_stores self env items w sentiment sc); auto.
        eapply Inserted; eauto. apply pyval_eqb_refl.
    + rewrite (deliver_insert_unreachable self env items w sentiment sc); auto.
      now apply (Rejected _ _ true).
Qed.

Lemma deliver_undecodable self env w :
  deliver self env Undecodable w =
  {| store := store w; metrics := bump_failed (metrics w);
     events := events w ++ [Ebasic_nack true] |}.
Proof. reflexivity. Qed.

(** The same for any body; a body without fields has no job id and is
    rejected. *)
Lemma deliver_outcome self env body w :
  exists j, Outcome w j (deliver self env body w).
Proof.
  destruct body as [| |v].
  - exists PyNone. rewrite deliver_undecodable. now apply (Rejected _ _ true).
  - exists PyNone. rewrite deliver_not_json. now apply (Rejected _ _ false).
  - destruct v as [| | | | | |items];
      try (exists PyNone; rewrite deliver_not_a_dict by discriminate;
           now apply (Rejected _ _ true)).
    exists (job_id_of items). apply deliver_dict_outcome.
Qed.

(** The log a delivery starts from plays no part in what it does. *)
Lemma deliver_fresh self env body w :
  deliver self env body w =
  {| store := store (deliver self env body (fresh w));
     metrics := metrics (deliver self env body (fresh w));
     events := events w ++ trace self env body w |}.
Proof.
  unfold trace.
  destruct body as [| |v]; [reflexivity|reflexivity|].
  destruct v as [| | | | | |items];
    try (rewrite !deliver_not_a_dict by discriminate; reflexivity).
  destruct (predict_returns (model_service self) (dict_get items "text" (PyStr EmptyString)))
    as (sentiment & sc & Hp).
  destruct (reported env (job_id_of items) (store w)) as [d|] eqn:Hrep.
  - now rewrite (deliver_duplicate self env items w d), (deliver_duplicate self env items (fresh w) d).
  - destruct (insert_one_up env) eqn:Hi.
    + destruct (conflicts (job_id_of items) (store w)) eqn:Hc.
      * destruct (update_one_up env) eqn:Hu.
        -- destruct (set_first (job_id_of items)
                       (result_document self env items sentiment sc) (docs (store w)))
             as [l|e] eqn:Hs.
           ++ now rewrite (deliver_updates self env items w sentiment sc l),
                          (deliver_updates self env items (fresh w) sentiment sc l).
           ++ now rewrite (deliver_update_refused self env items w sentiment sc e),
                          (deliver_update_refused self env items (fresh w) sentiment sc e).
        -- now rewrite (deliver_update_unreachable self env items w sentiment sc),
                       (deliver_update_unreachable self env items (fresh w) sentiment sc).
      * now rewrite (deliver_stores self env items w sentiment sc),
                    (deliver_stores self env items (fresh w) sentiment sc).
    + now rewrite (deliver_insert_unreachable self env items w sentiment sc),
                  (deliver_insert_unreachable self env items (fresh w) sentiment sc).
Qed.


(** What an outcome says about the events of the delivery. *)
Lemma outcome_answer self env body w j :
  Outcome w j (deliver self env body w) ->
  exists a, answers (trace self env body w) = [a]
    /\ (a = Removed -> total_failed (metrics (deliver self env body w)) = total_failed (metrics w))
    /\ (a <> Removed -> deliver self env body w =
          {| store := store w; metrics := bump_failed (metrics w);
             events := events w ++ trace self env body w |}).
Proof.
  intros H. pose proof (deliver_fresh self env body w) as Hf.
  inversion H as [d new Hfind Hans Heq | d new Hd Hc Hans Heq
                 | d l new Hd Hs Hc Hans Heq | requeue new Hans Heq];
    rewrite <- Heq in Hf; injection Hf as _ _ Hev;
    apply app_inv_head in Hev; subst new;
    [exists Removed; split; [exact Hans|split; [intros _; reflexivity
                                                |intros Hn; now destruct Hn]]..|].
  eexists. split; [exact Hans|]. split.
  - now destruct requeue.
  - intros _. reflexivity.
Qed.

Lemma set_first_length j d l l' :
  set_first j d l = Ok l' -> List.length l' = List.length l.
Proof.
  revert l'. induction l as [|d0 l IH]; cbn; intros l'.
  - now intros [= <-].
  - destruct (has_job_id j d0).
    + destruct (_id d); [destruct (oid_eqb _ _)|]; intros [= <-]; reflexivity.
    + destruct (set_first j d l) as [l0|]; cbn; [|discriminate].
      intros [= <-]. cbn. now rewrite (IH l0).
Qed.

(** An accepted update either finds no document and changes nothing, or
    replaces the first match by a document with the job id of the update. *)
Lemma set_first_matches j d l l' :
  set_first j d l = Ok l' ->
  l' = l
  \/ exists l1 d0 l2 d',
       l = l1 ++ d0 :: l2 /\ l' = l1 ++ d' :: l2
       /\ pyval_eqb (job_id d0) j = true /\ job_id d' = job_id d.
Proof.
  revert l'. induction l as [|d0 l IH]; cbn; intros l' H.
  - injection H as <-. now left.
  - destruct (has_job_id j d0) eqn:Hm.
    + right. exists [], d0, l.
      destruct (_id d) as [i|] eqn:Hi.
      * destruct (oid_eqb (Some i) (_id d0)); [|discriminate].
        injection H as <-. exists d. repeat split. exact Hm.
      * injection H as <-. exists (set_id d (_id d0)). repeat split. exact Hm.
    + destruct (set_first j d l) as [l0|]; cbn in H; [|discriminate].
      injection H as <-.
      destruct (IH l0 eq_refl) as [->|(l1 & x & l2 & d' & -> & -> & Hx & Hd')].
      * now left.
      * right. exists (d0 :: l1), x, l2, d'. repeat split; auto.
Qed.

Lemma existsb_has_job_id_equal (j j' : pyval) (l : list Doc) :
  pyval_eqb j j' = true ->
  existsb (has_job_id j) l = existsb (has_job_id j') l.
Proof.
  intros H. induction l as [|d l IH]; cbn; [reflexivity|].
  now rewrite (has_job_id_equal j j' d H), IH.
Qed.

Lemma distinct_job_ids_app (l1 l2 : list Doc) :
  distinct_job_ids (l1 ++ l2) =
  distinct_job_ids l1 && distinct_job_ids l2
  && forallb (fun d => negb (existsb (has_job_id (job_id d)) l2)) l1.
Proof.
  induction l1 as [|d l1 IH]; cbn.
  - now rewrite andb_true_r.
  - rewrite existsb_app, IH, negb_orb.
    destruct (existsb (has_job_id (job_id d)) l1), (existsb (has_job_id (job_id d)) l2),
      (distinct_job_ids l1), (distinct_job_ids l2); cbn; auto.
Qed.

(** Under distinct job ids no value matches two documents. *)
Lemma distinct_at_most_one (j : pyval) (l : list Doc) :
  distinct_job_ids l = true -> (List.length (filter (has_job_id j) l) <= 1)%nat.
Proof.
  induction l as [|d l IH]; cbn; [lia|].
  intros H. apply andb_prop in H as (Hd & Hl).
  destruct (has_job_id j d) eqn:Hm; cbn; [|now apply IH].
  assert (Hnone : existsb (has_job_id j) l = false).
  { unfold has_job_id in Hm.
    rewrite (existsb_has_job_id_equal j (job_id d)) by (now rewrite pyval_eqb_sym).
    now apply negb_true_iff in Hd. }
  rewrite (existsb_false_filter _ _ Hnone). cbn. lia.
Qed.

Lemma distinct_job_ids_insert (j : pyval) (d : Doc) (l : list Doc) :
  distinct_job_ids l = true ->
  existsb (has_job_id j) l = false ->
  pyval_eqb (job_id d) j = true ->
  distinct_job_ids (l ++ [d]) = true.
Proof.
  intros Hl Hnew Hd.
  rewrite distinct_job_ids_app, Hl. cbn.
  apply forallb_forall. intros x Hx.
  apply negb_true_iff. cbn. rewrite orb_false_r.
  unfold has_job_id.
  destruct (pyval_eqb (job_id d) (job_id x)) eqn:E; [|reflexivity].
  assert (Hxj : has_job_id j x = true).
  { unfold has_job_id. rewrite pyval_eqb_sym in E.
    exact (pyval_eqb_trans _ _ _ E Hd). }
  assert (existsb (has_job_id j) l = true) by (apply existsb_exists; eauto).
  congruence.
Qed.

Lemma pyval_eqb_left (a b c : pyval) :
  pyval_eqb a b = true -> pyval_eqb a c = pyval_eqb b c.
Proof.
  intros H.
  destruct (pyval_eqb a c) eqn:E1, (pyval_eqb b c) eqn:E2; try reflexivity.
  - rewrite pyval_eqb_sym in H. rewrite (pyval_eqb_trans _ _ _ H E1) in E2. discriminate.
  - rewrite (pyval_eqb_trans _ _ _ H E2) in E1. discriminate.
Qed.

Lemma has_job_id_same (j : pyval) (d0 d' : Doc) :
  pyval_eqb (job_id d0) (job_id d') = true -> has_job_id j d' = has_job_id j d0.
Proof.
  intros He. unfold has_job_id. symmetry. now apply pyval_eqb_left.
Qed.

Lemma distinct_job_ids_replace (l1 l2 : list Doc) (d0 d' : Doc) :
  pyval_eqb (job_id d0) (job_id d') = true ->
  distinct_job_ids (l1 ++ d0 :: l2) = true ->
  distinct_job_ids (l1 ++ d' :: l2) = true.
Proof.
  intros He.
  assert (E1 : existsb (has_job_id (job_id d')) l2 = existsb (has_job_id (job_id d0)) l2)
    by (apply existsb_has_job_id_equal; now rewrite pyval_eqb_sym).
  assert (E2 : forallb (fun d => negb (existsb (has_job_id (job_id d)) (d' :: l2))) l1
               = forallb (fun d => negb (existsb (has_job_id (job_id d)) (d0 :: l2))) l1).
  { induction l1 as [|x l1 IH]; cbn; [reflexivity|].
    cbn in IH. rewrite IH.
    now rewrite (has_job_id_same (job_id x) d0 d' He). }
  rewrite !distinct_job_ids_app. cbn [distinct_job_ids].
  now rewrite E1, E2.
Qed.

Lemma set_first_distinct j d l l' :
  pyval_eqb (job_id d) j = true ->
  set_first j d l = Ok l' ->
  distinct_job_ids l = true -> distinct_job_ids l' = true.
Proof.
  intros Hd Hs Hl.
  destruct (set_first_matches j d l l' Hs) as [->|(l1 & d0 & l2 & d' & -> & -> & H0 & Hd')];
    [exact Hl|].
  apply (distinct_job_ids_replace l1 l2 d0 d'); [|exact Hl].
  rewrite Hd'. rewrite pyval_eqb_sym in Hd. exact (pyval_eqb_trans _ _ _ H0 Hd).
Qed.


(** ** Counters and answers *)

Lemma acks_app (l1 l2 : list Event) : acks (l1 ++ l2) = acks l1 + acks l2.
Proof. unfold acks. rewrite answers_app, filter_app, length_app. lia. Qed.

Lemma nacks_app (l1 l2 : list Event) : nacks (l1 ++ l2) = nacks l1 + nacks l2.
Proof. unfold nacks. rewrite answers_app, filter_app, length_app. lia. Qed.

Lemma outcome_counts (w w' : World) (j : pyval) :
  Outcome w j w' ->
  counted (metrics w') = counted (metrics w) + 1
  /\ start_time (metrics w') = start_time (metrics w)
  /\ acks (events w') - acks (events w)
     = (total_processed (metrics w') - total_processed (metrics w))
       + (total_duplicates (metrics w') - total_duplicates (metrics w))
  /\ nacks (events w') - nacks (events w)
     = total_failed (metrics w') - total_failed (metrics w)
  /\ List.length (answers (events w')) = S (List.length (answers (events w)))
  /\ total_processed (metrics w) <= total_processed (metrics w')
  /\ total_failed (metrics w) <= total_failed (metrics w')
  /\ total_duplicates (metrics w) <= total_duplicates (metrics w').
Proof.
  intros H.
  inversion H as [d new Hfind Hans Heq | d new Hd Hc Hans Heq
                 | d l new Hd Hs Hc Hans Heq | requeue new Hans Heq];
    cbn [metrics events store]; rewrite acks_app, nacks_app, answers_app, length_app;
    unfold acks, nacks, counted; rewrite Hans; try destruct requeue; cbn; repeat split; lia.
Qed.

(** X1.  Every delivery, whatever its body and whatever the store does, is
    answered exactly once and moves exactly one counter by one.  Over any
    sequence of deliveries the three counters together grow by the number
    of deliveries, the acknowledgements are the processed and duplicate
    jobs, the rejections are the failed ones, no counter ever decreases and
    the start time is never touched. *)
Theorem X1_every_delivery_is_counted_once
    (self : SentimentWorker) (ds : list (Env * Body)) (w : World) :
  let w' := deliver_all self ds w in
  counted (metrics w') = counted (metrics w) + Z.of_nat (List.length ds)
  /\ List.length (answers (events w')) = (List.length (answers (events w)) + List.length ds)%nat
  /\ acks (events w') - acks (events w)
     = (total_processed (metrics w') - total_processed (metrics w))
       + (total_duplicates (metrics w') - total_duplicates (metrics w))
  /\ nacks (events w') - nacks (events w)
     = total_failed (metrics w') - total_failed (metrics w)
  /\ total_processed (metrics w) <= total_processed (metrics w')
  /\ total_failed (metrics w) <= total_failed (metrics w')
  /\ total_duplicates (metrics w) <= total_duplicates (metrics w')
  /\ start_time (metrics w') = start_time (metrics w).
Proof.
  revert w. induction ds as [|[env body] ds IH]; intros w; cbn [deliver_all List.length].
  - cbn. repeat split; lia.
  - destruct (deliver_outcome self env body w) as (j & Hout).
    destruct (outcome_counts _ _ _ Hout) as (Hc & Hs & Ha & Hn & Hl & Hp & Hf & Hd).
    destruct (IH (deliver self env body w)) as (IHc & IHl & IHa & IHn & IHp & IHf & IHd & IHs).
    cbn zeta. rewrite IHc, IHl, IHs, Hc, Hl, Hs.
    repeat split; lia.
Qed.

(** ** What a delivery writes *)

(** The outcome of a delivery, read on its own events. *)
Lemma outcome_inv self env body w j :
  Outcome w j (deliver self env body w) ->
  (exists d,
      find (has_job_id j) (docs (store w)) = Some d
      /\ answers (trace self env body w) = [Removed]
      /\ store (deliver self env body w) = store w
      /\ metrics (deliver self env body w) = bump_duplicates (metrics w))
  \/ (exists d,
      pyval_eqb (job_id d) j = true
      /\ conflicts j (store w) = false
      /\ answers (trace self env body w) = [Removed]
      /\ store (deliver self env body w)
         = {| docs := docs (store w) ++ [d]; job_id_unique := job_id_unique (store w) |}
      /\ metrics (deliver self env body w) = bump_processed (metrics w))
  \/ (exists d l,
      pyval_eqb (job_id d) j = true
      /\ set_first j d (docs (store w)) = Ok l
      /\ conflicts j (store w) = true
      /\ answers (trace self env body w) = [Removed]
      /\ store (deliver self env body w)
         = {| docs := l; job_id_unique := job_id_unique (store w) |}
      /\ metrics (deliver self env body w) = bump_processed (metrics w))
  \/ (exists requeue : bool,
      answers (trace self env body w) = [if requeue then Requeued else DeadLettered]
      /\ store (deliver self env body w) = store w
      /\ metrics (deliver self env body w) = bump_failed (metrics w)).
Proof.
  intros H. pose proof (deliver_fresh self env body w) as Hf.
  inversion H as [d new Hfind Hans Heq | d new Hd Hc Hans Heq
                 | d l new Hd Hs Hc Hans Heq | requeue new Hans Heq];
    rewrite <- Heq in Hf; injection Hf as _ _ Hev;
    apply app_inv_head in Hev; subst new.
  - left. exists d. now repeat split.
  - right. left. exists d. now repeat split.
  - right. right. left. exists d, l. now repeat split.
  - right. right. right. exists requeue. now repeat split.
Qed.



(** X3.  A delivery either is rejected and leaves the collection exactly as
    it was, or is acknowledged and then has added at most one document and
    removed none.  The worker never touches the indexes. *)
Theorem X3_rejected_delivery_writes_nothing
    (self : SentimentWorker) (env : Env) (body : Body) (w : World) :
  let w' := deliver self env body w in
  job_id_unique (store w') = job_id_unique (store w)
  /\ ((answers (trace self env body w) = [Removed]
       /\ (List.length (docs (store w)) <= List.length (docs (store w'))
           <= S (List.length (docs (store w))))%nat)
      \/ ((answers (trace self env body w) = [Requeued]
           \/ answers (trace self env body w) = [DeadLettered])
          /\ store w' = store w
          /\ metrics w' = bump_failed (metrics w))).
Proof.
  cbn zeta.
  destruct (deliver_outcome self env body w) as (j & H).
  destruct (outcome_inv _ _ _ _ _ H)
    as [(d & _ & Hans & -> & _)
       |[(d & _ & _ & Hans & -> & _)
        |[(d & l & _ & Hs & _ & Hans & -> & _)
         |(requeue & Hans & -> & ->)]]]; cbn [store docs job_id_unique].
  - split; [reflexivity|]. left. split; [assumption|lia].
  - split; [reflexivity|]. left. split; [assumption|]. rewrite length_app. cbn. lia.
  - split; [reflexivity|]. left. split; [assumption|].
    rewrite (set_first_length _ _ _ _ Hs). lia.
  - split; [reflexivity|]. right. split; [|split; reflexivity].
    destruct requeue; auto.
Qed.

(** ** One record per job *)

Lemma outcome_keeps_distinct (w w' : World) (j : pyval) :
  Outcome w j w' ->
  job_id_unique (store w) = true -> distinct_job_ids (docs (store w)) = true ->
  job_id_unique (store w') = true /\ distinct_job_ids (docs (store w')) = true.
Proof.
  intros H Hu Hd.
  inversion H as [d new Hfind Hans Heq | d new Hj Hc Hans Heq
                 | d l new Hj Hs Hc Hans Heq | requeue new Hans Heq];
    cbn [store docs job_id_unique]; split; auto.
  - unfold conflicts in Hc. rewrite Hu in Hc. cbn in Hc.
    now apply (distinct_job_ids_insert j).
  - now apply (set_first_distinct j d (docs (store w))).
Qed.

Lemma deliver_all_keeps_distinct (self : SentimentWorker) (ds : list (Env * Body)) :
  forall w,
  job_id_unique (store w) = true -> distinct_job_ids (docs (store w)) = true ->
  job_id_unique (store (deliver_all self ds w)) = true
  /\ distinct_job_ids (docs (store (deliver_all self ds w))) = true.
Proof.
  induction ds as [|[env body] ds IH]; intros w Hu Hd; cbn [deliver_all]; [now split|].
  destruct (deliver_outcome self env body w) as (j & Hout).
  destruct (outcome_keeps_distinct _ _ _ Hout Hu Hd) as (Hu' & Hd').
  now apply IH.
Qed.

(** X4.  Once the API has built the unique index on job_id, no sequence of
    deliveries, whatever the bodies and the failures of the store, leaves
    two records for one job id; the index itself stays.  The job ids of the
    stored records and of the delivered jobs are strings, on which the
    query and the index compare by equality. *)
Theorem X4_one_record_per_job_under_the_index
    (self : SentimentWorker) (ds : list (Env * Body)) (s0 : Store) (w : World) :
  create_index_job_id_unique s0 = Ok (store w) ->
  forallb (fun d => string_id (job_id d)) (docs s0) = true ->
  forallb string_job ds = true ->
  job_id_unique (store (deliver_all self ds w)) = true
  /\ forall s, (records_for (PyStr s) (store (deliver_all self ds w)) <= 1)%nat.
Proof.
  unfold create_index_job_id_unique.
  destruct (distinct_job_ids (docs s0)) eqn:Hd; [|discriminate].
  intros [= Hw] _ _.
  destruct (deliver_all_keeps_distinct self ds w) as (Hu' & Hd').
  - now rewrite <- Hw.
  - now rewrite <- Hw.
  - split; [exact Hu'|]. intros s. now apply distinct_at_most_one.
Qed.

Lemma X4_one_record_witness :
  let w' := deliver_all (Scenario.worker "a" Scenario.keyword_model)
              [(Scenario.all_up 1, Scenario.job "j1" "great");
               (Scenario.read_down 2, Scenario.job "j1" "great");
               (Scenario.all_up 3, Scenario.job "j1" "great")]
              Scenario.empty_world in
  job_id_unique (store w') = true
  /\ forall s, (records_for (PyStr s) (store w') <= 1)%nat.
Proof.
  apply (X4_one_record_per_job_under_the_index
           (Scenario.worker "a" Scenario.keyword_model) _
           (store Scenario.empty_unindexed_world) Scenario.empty_world);
    reflexivity.
Defined.

(** ** Saving and reading back *)








(** X7.  The first writer wins.  On a collection with the unique index
    that already holds a record of the job, saving a record that has no
    [_id] yet raises [WriteError] and leaves the stored record as it is,
    whatever the fields of the two records. *)
Theorem X7_first_writer_wins
    (env : Env) (result d : Doc) (w : World) :
  job_id_unique (store w) = true ->
  find (has_job_id (job_id result)) (docs (store w)) = Some d ->
  _id result = None ->
  _id d <> Some (new_object_id env) ->
  insert_one_up env = true -> update_one_up env = true ->
  fst (save_result env result w) = Raise WriteError
  /\ store (snd (save_result env result w)) = store w.
Proof.
  intros Hu Hf Hn Hne Hi Hup.
  destruct (save_result_conflict env result d w Hi Hup Hu Hf Hn Hne) as (w' & -> & Hs).
  now split.
Qed.

Lemma X7_first_writer_witness :
  let w1 := snd (save_result (Scenario.all_up 1) (Scenario.record "a" (9 # 10))
                   Scenario.empty_world) in
  fst (save_result (Scenario.all_up 2) (Scenario.record "b" (8 # 10)) w1) = Raise WriteError
  /\ store (snd (save_result (Scenario.all_up 2) (Scenario.record "b" (8 # 10)) w1)) = store w1.
Proof.
  apply (X7_first_writer_wins (Scenario.all_up 2) (Scenario.record "b" (8 # 10))
           (set_id (Scenario.record "a" (9 # 10)) (Some 1%nat))).
  - reflexivity.
  - reflexivity.
  - reflexivity.
  - discriminate.
  - reflexivity.
  - reflexivity.
Defined.

(** ** The classifier *)



Lemma _mock_prediction_on_str (s : string) :
  exists q, _mock_prediction (PyStr s) = Ok q /\ in_unit_interval q.
Proof.
  destruct (_mock_prediction (PyStr s)) as [q|e] eqn:Hq.
  - exists q. split; [reflexivity|]. exact (_mock_prediction_bounds _ _ Hq).
  - exfalso. revert Hq. unfold _mock_prediction. cbn [py_lower rbind].
    match goal with |- context [if ?c then _ else _] => destruct c end; discriminate.
Qed.

(** X9.  The keyword heuristic [_mock_prediction] is defined on strings
    only: on any string it returns a score between 0 and 1, on any other
    value it raises [AttributeError]. *)
Theorem X9_mock_prediction_is_a_fraction (text : pyval) :
  match text with
  | PyStr s => exists q, _mock_prediction text = Ok q /\ in_unit_interval q
  | _ => _mock_prediction text = Raise AttributeError
  end.
Proof.
  destruct text; try reflexivity. apply _mock_prediction_on_str.
Qed.

(** ** Connecting to the store, checking the broker, publishing *)

Ltac earlier_attempts :=
  let i := fresh "i" in
  let Hi := fresh "Hi" in
  intros i Hi;
  repeat (destruct i as [|i]; [eexists; split; eassumption|]);
  exfalso; lia.

Ltac ends_after_at k :=
  exists k; repeat split;
  first [reflexivity | lia | assumption | congruence | earlier_attempts].

Ltac try_server server k :=
  let E := fresh "E" in
  let C := fresh "C" in
  let x := fresh "e" in
  destruct (server k) as [[]|x] eqn:E; cbn;
  [ends_after_at k
  |destruct (is_ConnectionFailure x) eqn:C; cbn; [|ends_after_at k]].

Lemma _connect_ends (server : MongoServer) :
  ends_after is_ConnectionFailure 3 2 server
    (fst (_connect server [])) (snd (_connect server [])).
Proof.
  unfold _connect, ends_after. cbn [seq _connect_loop].
  unfold bind, try_except, note, lift, ret, raise. cbn.
  try_server server 0%nat. try_server server 1%nat.
  destruct (server 2%nat) as [[]|last] eqn:Elast; cbn; [ends_after_at 2%nat|].
  destruct (is_ConnectionFailure last) eqn:Clast; cbn; ends_after_at 2%nat.
Qed.

(** X10.  The worker's [DatabaseService._connect] pings the store at most 3
    times and sleeps 2 seconds between two pings.  It ends with the first
    ping that succeeds or with the exception of the last ping made; only a
    [ConnectionFailure] is retried, any other exception leaves at once.  A
    store that never answers is given up after 3 pings and 4 seconds. *)
Theorem X10_store_connection_is_bounded (server : MongoServer) :
  ends_after is_ConnectionFailure 3 2 server
    (fst (_connect server [])) (snd (_connect server []))
  /\ (forall e, server 0%nat = Raise e -> is_ConnectionFailure e = false ->
        _connect server [] = (Raise e, [Cattempt 0]))
  /\ ((forall k, (k < 3)%nat -> server k = Raise AutoReconnect) ->
        _connect server []
        = (Raise AutoReconnect, [Cattempt 0; Csleep 2; Cattempt 1; Csleep 2; Cattempt 2])).
Proof.
  split; [apply _connect_ends|]. split.
  - intros e He Hc. unfold _connect. cbn [seq _connect_loop].
    unfold bind, try_except, note, lift, ret, raise. rewrite He. cbn. now rewrite Hc.
  - intros Hdown. unfold _connect. cbn [seq _connect_loop].
    unfold bind, try_except, note, lift, ret, raise.
    rewrite (Hdown 0%nat), (Hdown 1%nat), (Hdown 2%nat) by lia. reflexivity.
Qed.

Lemma X10_store_connection_witness :
  _connect (fun _ => Raise AutoReconnect) []
  = (Raise AutoReconnect, [Cattempt 0; Csleep 2; Cattempt 1; Csleep 2; Cattempt 2])
  /\ _connect (fun _ => Raise WriteError) [] = (Raise WriteError, [Cattempt 0]).
Proof.
  pose proof (X10_store_connection_is_bounded (fun _ => Raise AutoReconnect)) as (_ & _ & H1).
  pose proof (X10_store_connection_is_bounded (fun _ => Raise WriteError)) as (_ & H2 & _).
  split; [exact (H1 (fun _ _ => eq_refl))|exact (H2 WriteError eq_refl eq_refl)].
Defined.

(** [_create_connection] returns a connection exactly when the broker is
    reached within its 3 attempts. *)
Lemma _create_connection_connects (broker : Broker) :
  (exists c, fst (_create_connection broker []) = Ok (Some c)) <-> reached_within 3 broker.
Proof.
  pose proof (_create_connection_ends broker) as (k & Hk & Hatt & _ & Hfirst & Hend).
  split.
  - intros (c & Hc). rewrite Hc in Hend. now exists k.
  - intros (k' & Hk' & Hok & Hbefore).
    unfold _create_connection. cbn [seq _create_connection_loop].
    unfold bind, try_except, note, lift, ret, raise.
    destruct k' as [|[|[|k']]]; try lia.
    + rewrite Hok. cbn. eauto.
    + rewrite (Hbefore 0%nat) by lia. cbn. rewrite Hok. cbn. eauto.
    + rewrite (Hbefore 0%nat), (Hbefore 1%nat) by lia. cbn. rewrite Hok. cbn. eauto.
Qed.

(** X11.  [QueueService.check_connection] never raises.  It answers [True]
    exactly when the broker is reached within the 3 attempts of
    [_create_connection], the connection is open and closing it goes
    through; in every other case, whatever the exception, it answers
    [False]. *)
Theorem X11_check_connection_answers
    (broker : Broker) (is_closed : bool) (closing : result unit) :
  exists answer,
    fst (check_connection broker is_closed closing []) = Ok answer
    /\ (answer = true <->
        reached_within 3 broker /\ is_closed = false /\ closing = Ok tt)
    /\ (attempts_made (snd (check_connection broker is_closed closing [])) <= 3)%nat.
Proof.
  pose proof (_create_connection_ends broker) as (k & Hk & Hatt & _).
  pose proof (_create_connection_connects broker) as Hreach.
  unfold check_connection, try_except, bind.
  destruct (_create_connection broker []) as [[[c|]|e] log] eqn:Hconn; cbn [fst snd] in *.
  - assert (Hr : reached_within 3 broker) by (apply Hreach; eauto).
    destruct is_closed; cbn -[attempts_made].
    + exists false. split; [reflexivity|]. split; [|lia].
      split; [discriminate|]. now intros (_ & H & _).
    + unfold lift. destruct closing as [[]|e]; cbn -[attempts_made].
      * exists true. split; [reflexivity|]. split; [|lia]. now split.
      * exists false. split; [reflexivity|]. split; [|lia].
        split; [discriminate|]. now intros (_ & _ & H).
  - cbn -[attempts_made].
    exists false. split; [reflexivity|]. split; [|lia].
    split; [discriminate|]. intros (Hr & _).
    apply Hreach in Hr as (c & Hc). discriminate.
  - cbn -[attempts_made].
    exists false. split; [reflexivity|]. split; [|lia].
    split; [discriminate|]. intros (Hr & _).
    apply Hreach in Hr as (c & Hc). discriminate.
Qed.


(** ** Starting a worker *)

Lemma fold_right_add_repeat (d : Z) (k : nat) :
  fold_right Z.add 0 (repeat d k) = d * Z.of_nat k.
Proof.
  induction k as [|k IH]; [cbn; lia|].
  cbn [repeat fold_right]. rewrite IH. lia.
Qed.

(** X13.  [SentimentWorker.__init__] reaches the store before it contacts
    the broker: when the model service cannot be built or the store does not
    answer, the broker sees no attempt.  Whatever happens, starting makes at
    most 3 attempts on the store and 5 on the broker and sleeps at most 24
    seconds.  When it returns, the store and the broker were both reached
    and the counters of the new worker are zero. *)
Theorem X13_worker_startup_is_ordered_and_bounded
    (worker_id : string) (loading : result ModelService)
    (server : MongoServer) (broker : Broker) (now : Q) :
  let r := fst (SentimentWorker_init worker_id loading server broker now no_startup) in
  let s := snd (SentimentWorker_init worker_id loading server broker now no_startup) in
  (attempts_made (store_log s) <= 3)%nat
  /\ (attempts_made (broker_log s) <= 5)%nat
  /\ slept (store_log s) + slept (broker_log s) <= 24
  /\ (broker_log s <> [] ->
      fst (_connect server []) = Ok tt /\ exists ms, loading = Ok ms)
  /\ (forall worker metrics, r = Ok (worker, metrics) ->
      metrics = init_metrics now
      /\ self_worker_id worker = worker_id
      /\ loading = Ok (model_service worker)
      /\ fst (_connect server []) = Ok tt
      /\ fst (setup_rabbitmq broker []) = Ok tt).
Proof.
  pose proof (_connect_ends server) as (k & Hk & Hatt & Hsl & _).
  pose proof (setup_rabbitmq_ends broker) as (k' & Hk' & Hatt' & Hsl' & _).
  assert (Hs : slept (snd (_connect server [])) <= 4)
    by (unfold slept; rewrite Hsl, fold_right_add_repeat; lia).
  assert (Hs' : slept (snd (setup_rabbitmq broker [])) <= 20)
    by (unfold slept; rewrite Hsl', fold_right_add_repeat; lia).
  cbn zeta.
  unfold SentimentWorker_init, on_store_log, on_broker_log, worker_startup, no_startup,
    bind, lift, ret.
  cbn [store_log broker_log].
  assert (H0 : slept [] = 0) by reflexivity.
  assert (A0 : attempts_made [] = 0%nat) by reflexivity.
  destruct (_connect server []) as [rs slog]. cbn [fst snd] in *.
  destruct loading as [ms|e]; cbn [fst snd store_log broker_log];
    [destruct rs as [[]|e]; cbn [fst snd store_log broker_log];
     [destruct (setup_rabbitmq broker []) as [rb blog]; cbn [fst snd] in *;
      destruct rb as [[]|e]; cbn [fst snd store_log broker_log]|]|];
    (split; [lia|]); (split; [lia|]); (split; [lia|]); split.
  - eauto.
  - intros worker metrics [= <- <-]. auto.
  - eauto.
  - discriminate.
  - intros H. now destruct H.
  - discriminate.
  - intros H. now destruct H.
  - discriminate.
Qed.

(** ** Loading the model *)

(** X14.  [ModelService.__init__] either raises or leaves a model and a
    tokenizer in place, so [is_loaded] holds for every service that exists.
    Two good files are loaded and nothing is written.  But a model file that
    loads next to a tokenizer file that does not is not kept: the fallback
    builds the dummy model and saves it over the model file. *)
Theorem X14_load_model_outcomes (model tokenizer : File) (can_write : bool) :
  let r := fst (ModelService_init model tokenizer can_write) in
  let s := snd (ModelService_init model tokenizer can_write) in
  (r = Ok tt ->
   is_loaded s = true /\ self_tokenizer s <> None)
  /\ (forall a b, model = Holds a -> tokenizer = Holds b ->
      r = Ok tt /\ self_model s = Some a /\ self_tokenizer s = Some b
      /\ model_file s = model /\ tokenizer_file s = tokenizer)
  /\ (forall a, model = Holds a -> tokenizer = Unreadable -> can_write = true ->
      r = Ok tt /\ model_file s = Holds Dummy /\ self_model s = Some Dummy)
  /\ (can_write = false -> r = Ok tt ->
      exists a b, model = Holds a /\ tokenizer = Holds b).
Proof.
  cbn zeta. repeat apply conj.
  - destruct model as [|[]|], tokenizer as [|[]|], can_write; cbn;
      intros H; try discriminate H; split; try reflexivity; discriminate.
  - intros a b -> ->. destruct can_write; cbn; auto.
  - intros a -> -> ->. cbn. auto.
  - intros ->. destruct model as [|a|], tokenizer as [|b|]; cbn;
      intros H; try discriminate H; eauto.
Qed.

Lemma X14_load_model_witness :
  let s := snd (ModelService_init (Holds Trained) Unreadable true) in
  fst (ModelService_init (Holds Trained) Unreadable true) = Ok tt
  /\ model_file s = Holds Dummy /\ self_model s = Some Dummy.
Proof.
  pose proof (X14_load_model_outcomes (Holds Trained) Unreadable true) as (_ & _ & H & _).
  exact (H Trained eq_refl eq_refl eq_refl).
Defined.

(** ** The mock classifier of the API and the synchronous endpoint *)

Lemma py_clamp_bounds (x : Q) : in_unit_interval (py_max 0 (py_min 1 x)).
Proof.
  unfold in_unit_interval, py_max, py_min.
  destruct (Qlt_le_dec x 1) as [Hx|Hx].
  - destruct (Qlt_le_dec 0 x) as [H0|H0].
    + split; [now apply Qlt_le_weak|now apply Qlt_le_weak].
    + split; [apply Qle_refl|]. unfold Qle. cbn. lia.
  - destruct (Qlt_le_dec 0 1) as [H0|H0].
    + split; [exact (Qlt_le_weak _ _ H0)|apply Qle_refl].
    + split; [apply Qle_refl|]. unfold Qle. cbn. lia.
Qed.

Lemma py_clamp_inside (x : Q) : in_unit_interval x -> (py_max 0 (py_min 1 x) == x)%Q.
Proof.
  unfold in_unit_interval, py_max, py_min. intros (H0 & H1).
  destruct (Qlt_le_dec x 1) as [Hx|Hx].
  - destruct (Qlt_le_dec 0 x) as [Hp|Hp]; [reflexivity|]. now apply Qle_antisym.
  - destruct (Qlt_le_dec 0 1) as [Hp|Hp].
    + now apply Qle_antisym.
    + exfalso. revert Hp. unfold Qle. cbn. lia.
Qed.

(** X15.  Whatever the text and whatever the random noise, the score of
    the API's [predict] lies between 0 and 1, and its label is positive for
    a score of at least 1/2 and negative below; it is never neutral. *)
Theorem X15_api_predict_is_clamped (text : string) (noise : Q) :
  in_unit_interval (snd (Api.predict text noise))
  /\ ((fst (Api.predict text noise) = "positive" /\ (1 # 2 <= snd (Api.predict text noise))%Q)
      \/ (fst (Api.predict text noise) = "negative"
          /\ (snd (Api.predict text noise) < 1 # 2)%Q)).
Proof.
  unfold Api.predict. cbn zeta. cbn [fst snd].
  match goal with |- context [py_max 0 (py_min 1 ?x)] => generalize x end.
  intros x. split; [apply py_clamp_bounds|].
  unfold ge_half. destruct (Qle_bool (1 # 2) (py_max 0 (py_min 1 x))) eqn:Hq.
  - left. split; [reflexivity|]. now apply Qle_bool_iff.
  - right. split; [reflexivity|]. apply Qnot_le_lt. intros Hle.
    apply Qle_bool_iff in Hle. congruence.
Qed.

Lemma same_keywords (f : string -> bool) :
  List.length (filter f Api.positive_keywords) = List.length (filter f positive_words)
  /\ List.length (filter f Api.negative_keywords) = List.length (filter f negative_words).
Proof.
  unfold Api.positive_keywords, positive_words, Api.negative_keywords, negative_words.
  cbn [filter].
  split.
  - destruct (f "love"), (f "great"), (f "excellent"), (f "good"), (f "amazing"),
      (f "awesome"), (f "best"); reflexivity.
  - destruct (f "hate"), (f "terrible"), (f "bad"), (f "awful"), (f "worst"), (f "poor");
      reflexivity.
Qed.

Lemma ge_half_Qeq (x y : Q) : (x == y)%Q -> ge_half x = ge_half y.
Proof.
  intros H. unfold ge_half.
  destruct (Qle_bool (1 # 2) x) eqn:Hx, (Qle_bool (1 # 2) y) eqn:Hy; try reflexivity.
  - apply Qle_bool_iff in Hx. rewrite H in Hx. apply Qle_bool_iff in Hx. congruence.
  - apply Qle_bool_iff in Hy. rewrite <- H in Hy. apply Qle_bool_iff in Hy. congruence.
Qed.

(** X16.  The mock classifier of the API and the keyword fallback of the
    worker are the same heuristic: with zero noise the API's [predict]
    gives, on every text, the score of the worker's [_mock_prediction] and
    the label the worker derives from it. *)
Theorem X16_api_and_worker_heuristics_agree (text : string) :
  exists q,
    _mock_prediction (PyStr text) = Ok q
    /\ (snd (Api.predict text 0) == q)%Q
    /\ fst (Api.predict text 0) = (if ge_half q then "positive" else "negative").
Proof.
  destruct (_mock_prediction_on_str text) as (q & Hq & Hin).
  exists q. split; [exact Hq|].
  assert (Hscore : (snd (Api.predict text 0) == q)%Q).
  { revert Hq. unfold _mock_prediction, Api.predict. cbn [py_lower rbind snd].
    destruct (same_keywords (fun word => contains word (lower text))) as (-> & ->).
    match goal with |- context [if ?c then _ else _] => destruct c end;
      intros [= <-]; rewrite py_clamp_inside.
    - apply Qplus_0_r.
    - unfold in_unit_interval in *. rewrite Qplus_0_r. exact Hin.
    - apply Qplus_0_r.
    - unfold in_unit_interval in *. rewrite Qplus_0_r. exact Hin. }
  split; [exact Hscore|].
  unfold Api.predict in *. cbn [fst snd] in *. now rewrite (ge_half_Qeq _ _ Hscore).
Qed.

(** ** The synchronous endpoint *)





Lemma score_field_ok_iff (q : Q) : score_field_ok q = true <-> in_unit_interval q.
Proof.
  unfold score_field_ok, in_unit_interval.
  rewrite andb_true_iff, !Qle_bool_iff. reflexivity.
Qed.



(** ** The asynchronous endpoint *)


(** ** The result endpoint *)

Lemma api_connect_outcome (ping_up : bool) (w : World) :
  Api._connect ping_up w =
  if ping_up
  then if distinct_job_ids (docs (store w))
       then (AOk tt, {| store := {| docs := docs (store w); job_id_unique := true |};
                        metrics := metrics w; events := events w |})
       else (ARaise (Library DuplicateKeyError), w)
  else (ARaise (PlainException "MongoDB connection failed" AutoReconnect), w).
Proof.
  unfold Api._connect, atry, araise, create_index_job_id_unique.
  destruct ping_up; [|reflexivity].
  now destruct (distinct_job_ids (docs (store w))).
Qed.

Lemma api_get_result_outcome (env : Env) (job_id : string) (w : World) :
  Api.get_result env job_id w =
  (if find_one_up env
   then match find (has_job_id (PyStr job_id)) (docs (store w)) with
        | Some d =>
            match timestamp d with
            | PyStr _ => AOk (Some d)
            | _ => ARaise (Library AttributeError)
            end
        | None => AOk None
        end
   else ARaise (Library AutoReconnect),
   {| store := store w; metrics := metrics w;
      events := events w ++ [Efind_one (PyStr job_id)] |}).
Proof.
  unfold Api.get_result, atry, abind, call, aret, araise, find_one, emit, bind, ret, raise,
    get_store.
  cbn [store metrics events].
  destruct (find_one_up env); [|reflexivity].
  destruct (find _ _) as [d|]; [|reflexivity].
  now destruct (timestamp d).
Qed.


Ltac refused :=
  cbn; unfold not_served, not_found;
  split; [reflexivity|]; split; [reflexivity|];
  split; [right; right; reflexivity|];
  split; [split; [discriminate|intros (_ & H); discriminate H]|];
  split; [intros _; reflexivity|]; split; [reflexivity|];
  intros served H; discriminate H.

(** The outcomes of [get_sentiment_result]. *)
Lemma get_sentiment_result_outcome
    (lib : Libraries) (ping_up : bool) (env : Env) (jid : string) (w : World) :
  let out := Api.get_sentiment_result lib ping_up env jid w in
  let reached := ping_up && distinct_job_ids (docs (store w)) && find_one_up env in
  docs (store (snd out)) = docs (store w)
  /\ metrics (snd out) = metrics w
  /\ ((exists served, fst out = AOk served)
      \/ fst out = ARaise (not_found jid)
      \/ fst out = ARaise not_served)
  /\ (fst out = ARaise (not_found jid)
      <-> reached = true /\ find (has_job_id (PyStr jid)) (docs (store w)) = None)
  /\ (reached = false -> fst out = ARaise not_served)
  /\ (ping_up && distinct_job_ids (docs (store w)) = true ->
      job_id_unique (store (snd out)) = true)
  /\ (forall served,
        fst out = AOk served ->
        exists d,
          find (has_job_id (PyStr jid)) (docs (store w)) = Some d
          /\ Api.result_score served = score d
          /\ Api.result_sentiment served = sentiment d
          /\ in_unit_interval (score d)).
Proof.
  cbn zeta. unfold Api.get_sentiment_result, atry, abind.
  rewrite api_connect_outcome.
  destruct ping_up; cbn [andb];
    [|unfold araise, not_served, not_found; cbn;
      repeat split; try discriminate; auto;
      try (intros (H & _); discriminate H); now intros served [=]].
  destruct (distinct_job_ids (docs (store w))) eqn:Hd; cbn [andb];
    [|unfold araise, not_served, not_found; cbn;
      repeat split; try discriminate; auto;
      try (intros (H & _); discriminate H); now intros served [=]].
  rewrite api_get_result_outcome. cbn [store docs metrics events].
  destruct (find_one_up env);
    [|unfold araise, not_served, not_found; cbn;
      repeat split; try discriminate; auto;
      try (intros (H & _); discriminate H); now intros served [=]].
  destruct (find (has_job_id (PyStr jid)) (docs (store w))) as [d|] eqn:Hfind.
  - destruct (timestamp d) as [| | | |ts| |] eqn:Hts.
    1-4, 6-7: refused.
    unfold Api.alift, Api.parse_datetime. rewrite ?Hts.
    destruct (fromisoformat lib (replace_Z ts)) as [t0|]; [|refused].
    destruct (fromisoformat lib (replace_Z (processed_at d))) as [t1|]; [|refused].
    destruct (total_seconds lib t1 t0) as [seconds|]; [|refused].
    unfold Api.new_SentimentResult. rewrite Hts.
    destruct (str_field lib (job_id d)) as [j|]; [|refused].
    destruct (str_field lib (text d)) as [t|]; [|refused].
    destruct (datetime_field lib (PyStr ts)) as [dts|]; [|refused].
    destruct (datetime_field lib (PyStr (processed_at d))) as [dpa|]; [|refused].
    destruct (score_field_ok (score d)) eqn:Hsc; [|refused].
    cbn. unfold not_served, not_found.
    split; [reflexivity|]. split; [reflexivity|].
    split; [left; eexists; reflexivity|].
    split; [split; [discriminate|intros (_ & H); discriminate H]|].
    split; [intros H; discriminate H|]. split; [reflexivity|].
    intros served [= <-]. exists d. cbn. repeat split; now apply score_field_ok_iff.
  - unfold araise, not_found. cbn.
    repeat split; auto; try discriminate.
Qed.

(** X20.  The result endpoint raises nothing but a 404 and one 500, reads
    the collection without changing a document or a counter, and builds the
    unique index on its way.  It answers 404 exactly when the store is
    reached, the index can be built, the read goes through and finds no
    record of the job.  It answers 500 whenever one of the first three
    fails, in particular when two stored records share a job id.  A record
    it serves has a score between 0 and 1: a stored record whose score is
    out of range is answered with 500. *)
Theorem X20_result_endpoint_statuses
    (lib : Libraries) (ping_up : bool) (env : Env) (jid : string) (w : World) :
  let out := Api.get_sentiment_result lib ping_up env jid w in
  let reached := ping_up && distinct_job_ids (docs (store w)) && find_one_up env in
  docs (store (snd out)) = docs (store w)
  /\ metrics (snd out) = metrics w
  /\ ((exists served, fst out = AOk served)
      \/ fst out = ARaise (not_found jid)
      \/ fst out = ARaise not_served)
  /\ (fst out = ARaise (not_found jid)
      <-> reached = true /\ find (has_job_id (PyStr jid)) (docs (store w)) = None)
  /\ (reached = false -> fst out = ARaise not_served)
  /\ (ping_up && distinct_job_ids (docs (store w)) = true ->
      job_id_unique (store (snd out)) = true)
  /\ (forall served,
        fst out = AOk served ->
        exists d,
          find (has_job_id (PyStr jid)) (docs (store w)) = Some d
          /\ Api.result_score served = score d
          /\ Api.result_sentiment served = sentiment d
          /\ in_unit_interval (score d)).
Proof. exact (get_sentiment_result_outcome lib ping_up env jid w). Qed.


(** ** From submission to result *)

(** X21.  A job goes from the asynchronous endpoint to the result endpoint:
    the envelope built for a job id that has no record yet is delivered to a
    worker, which acknowledges it.  From then on the result endpoint does
    not answer 404 for that job id, whatever the state of the store, and
    what it serves is the label and the score that the worker's [predict]
    gives for the text of the request. *)
Theorem X21_submitted_job_is_served_with_the_workers_answer
    (self : SentimentWorker) (env env' : Env) (lib : Libraries) (ping_up : bool)
    (uuid now0 request_text : string) (w : World) :
  let body := json_dumps (Api.message_of uuid request_text now0) in
  existsb (has_job_id (PyStr uuid)) (docs (store w)) = false ->
  answers (trace self env body w) = [Removed] ->
  let out := Api.get_sentiment_result lib ping_up env' uuid (deliver self env body w) in
  fst out <> ARaise (not_found uuid)
  /\ (forall served,
        fst out = AOk served ->
        predict (model_service self) (PyStr request_text)
        = Ok (Api.result_sentiment served, Api.result_score served)).
Proof.
  cbn zeta. unfold json_dumps, Api.message_of. intros Hnew Hack.
  set (items := [("job_id", PyStr uuid); ("text", PyStr request_text);
                 ("timestamp", PyStr now0); ("status", PyStr "submitted")]) in *.
  destruct (predict_returns (model_service self) (PyStr request_text))
    as (sentiment & sc & Hp).
  assert (Hrep : forall s, docs s = docs (store w) ->
                   reported env (dict_get items "job_id" (PyStr "unknown")) s = None).
  { intros s Hs. unfold reported. cbn. rewrite Hs.
    destruct (find_one_up env); [now apply existsb_false_find|reflexivity]. }
  assert (Hfree : forall s, docs s = docs (store w) ->
                   conflicts (dict_get items "job_id" (PyStr "unknown")) s = false).
  { intros s Hs. unfold conflicts. cbn. rewrite Hs, Hnew. apply andb_false_r. }
  destruct (insert_one_up env) eqn:Hins.
  - rewrite (deliver_stores self env items w sentiment sc (Hrep _ eq_refl) Hins
               (Hfree _ eq_refl) Hp).
    match goal with |- context [Api.get_sentiment_result lib ping_up env' uuid ?w1] =>
      pose proof (get_sentiment_result_outcome lib ping_up env' uuid w1)
        as (_ & _ & _ & H404 & _ & _ & Hserved);
      cbn zeta in H404, Hserved; cbn [store docs] in H404, Hserved
    end.
    assert (Hfind : find (has_job_id (PyStr uuid))
                      (docs (store w) ++ [result_document self env items sentiment sc])
                    = Some (result_document self env items sentiment sc)).
    { rewrite find_app_none by now apply existsb_false_find.
      cbn [find]. now rewrite (has_job_id_str uuid). }
    rewrite Hfind in H404, Hserved. split.
    + intros H. apply H404 in H as (_ & H). discriminate H.
    + intros served Hout. destruct (Hserved served Hout) as (d & [= <-] & Hsc & Hse & _).
      rewrite Hsc, Hse. exact Hp.
  - exfalso. revert Hack. unfold trace.
    rewrite (deliver_insert_unreachable self env items (fresh w) sentiment sc
               (Hrep _ eq_refl) Hins Hp).
    discriminate.
Qed.

Lemma X21_submitted_job_witness :
  let self := Scenario.worker "a" Scenario.keyword_model in
  let body := json_dumps (Api.message_of "j1" "I love this" "2024-01-01T00:00:00") in
  let w' := deliver self (Scenario.all_up 1) body Scenario.empty_world in
  let out := Api.get_sentiment_result ApiScenario.libs true (Scenario.all_up 2) "j1" w' in
  (exists served, fst out = AOk served /\ Api.result_sentiment served = "positive")
  /\ fst out <> ARaise (not_found "j1")
  /\ (forall served,
        fst out = AOk served ->
        predict (model_service self) (PyStr "I love this")
        = Ok (Api.result_sentiment served, Api.result_score served)).
Proof.
  split; [eexists; split; reflexivity|].
  exact (X21_submitted_job_is_served_with_the_workers_answer
           (Scenario.worker "a" Scenario.keyword_model)
           (Scenario.all_up 1) (Scenario.all_up 2) ApiScenario.libs true
           "j1" "2024-01-01T00:00:00" "I love this" Scenario.empty_world
           eq_refl eq_refl).
Defined.
